(** * Attendance report generator: a shallow embedding of [streamlit_app.py]

    The development follows the source file top to bottom: the Python
    primitives the program relies on ([str.strip], [str.split], [int],
    integer formatting, binary64 arithmetic), then [clean_report_data],
    [calculate_hours], [calculate_total_minutes], [calculate_extra_minutes],
    the embedded employee directory, and the row loop with the final sort.

    Scope of the model.  Strings are ASCII ([string] of the Standard
    Library): [Py.strip] and [Py.int] know the ASCII white space and digits
    only, where Python also knows the Unicode ones, so statements that
    depend on them are made of ASCII text.  A cell of a data frame is either
    a [str] or the missing value NaN, which is what [pd.read_csv] yields in
    a column of text; an uploaded frame records, for the two columns read
    through the [.str] accessor, whether they are such columns.  Floats are
    IEEE binary64 values, computed with the Standard Library's [SpecFloat]. *)

From Stdlib Require Import ZArith Lia List String Ascii Bool SpecFloat DecimalString.
From stdpp Require Import base option list strings gmap sorting.

Local Open Scope string_scope.
Local Open Scope Z_scope.

(** ** Python string primitives *)
Module Py.

(** [str.isspace] on ASCII: TAB, LF, VT, FF, CR, FS, GS, RS, US and space. *)
Definition isspace (c : ascii) : bool :=
  let n := N_of_ascii c in
  ((9 <=? n) && (n <=? 13) || (28 <=? n) && (n <=? 32))%N.

(** The white space [int] skips around a literal (C's [isspace]): TAB, LF,
    VT, FF, CR and space, but not the four separators FS to US. *)
Definition c_isspace (c : ascii) : bool :=
  let n := N_of_ascii c in
  ((9 <=? n) && (n <=? 13) || (n =? 32))%N.

Section Strip.
Variable space : ascii -> bool.

Fixpoint lstrip_by (s : string) : string :=
  match s with
  | String c s' => if space c then lstrip_by s' else s
  | EmptyString => EmptyString
  end.

(** A character is kept when it is not a space or when something that is
    kept follows it. *)
Fixpoint rstrip_by (s : string) : string :=
  match s with
  | String c s' =>
      match rstrip_by s' with
      | EmptyString => if space c then EmptyString else String c EmptyString
      | r => String c r
      end
  | EmptyString => EmptyString
  end.

Definition strip_by (s : string) : string := rstrip_by (lstrip_by s).
End Strip.

(** [s.strip()], on ASCII text. *)
Definition strip (s : string) : string := strip_by isspace s.

(** [s.split(':')]: never empty, one more part than there are separators. *)
Fixpoint split_colon (s : string) : list string :=
  match s with
  | EmptyString => [EmptyString]
  | String c s' =>
      if Ascii.eqb c ":" then EmptyString :: split_colon s'
      else match split_colon s' with
           | p :: ps => String c p :: ps
           | [] => [String c EmptyString]
           end
  end.

(** [needle in s], which is what [Series.str.contains] does with a pattern
    that has no regular-expression metacharacter. *)
Fixpoint contains (needle s : string) : bool :=
  String.prefix needle s ||
  match s with
  | String _ s' => contains needle s'
  | EmptyString => false
  end.

(** [re.sub("^'", "", s)]: the anchor matches at position 0 only. *)
Definition remove_leading_apostrophe (s : string) : string :=
  match s with
  | String c s' => if Ascii.eqb c "'" then s' else s
  | EmptyString => EmptyString
  end.

Definition is_digit (c : ascii) : bool :=
  let n := N_of_ascii c in ((48 <=? n) && (n <=? 57))%N.

Definition digit_value (c : ascii) : Z := Z.of_N (N_of_ascii c) - 48.

(** The digits of an [int] literal: decimal digits, single underscores
    allowed between two digits.  [prev] tells whether the previous character
    was a digit. *)
Fixpoint int_body (s : string) (acc : Z) (prev : bool) : option Z :=
  match s with
  | EmptyString => if prev then Some acc else None
  | String c s' =>
      if is_digit c then int_body s' (10 * acc + digit_value c) true
      else if Ascii.eqb c "_" then (if prev then int_body s' acc false else None)
      else None
  end.

Fixpoint count_digits (s : string) : Z :=
  match s with
  | EmptyString => 0
  | String c s' => (if is_digit c then 1 else 0) + count_digits s'
  end.

(** [sys.int_info.default_max_str_digits] *)
Definition max_str_digits : Z := 4300.

(** [int(s)], on ASCII text; [None] stands for [ValueError]. *)
Definition int (s : string) : option Z :=
  let checked (body : string) (sign : Z) : option Z :=
    if (max_str_digits <? count_digits body)%Z then None
    else z ← int_body body 0 false; Some (sign * z)%Z in
  match strip_by c_isspace s with
  | String c body =>
      if Ascii.eqb c "-" then checked body (-1)
      else if Ascii.eqb c "+" then checked body 1
      else checked (String c body) 1
  | EmptyString => None
  end.

(** [str(n)] for an [int]. *)
Definition str_of_int (n : Z) : string := NilZero.string_of_int (Z.to_int n).

(** [f"{n:02d}"]: sign-aware zero padding to width two. *)
Definition format_02d (n : Z) : string :=
  if n <? 0 then str_of_int n
  else if n <? 10 then String "0" (str_of_int n)
  else str_of_int n.

End Py.

(** ** Binary64 arithmetic as Python exposes it *)
Module Float.

Definition prec : Z := 53.
Definition emax : Z := 1024.

(** An integer as an exact, not yet rounded, floating-point datum. *)
Definition of_Z_exact (z : Z) : spec_float :=
  match z with
  | Z0 => S754_zero false
  | Zpos p => S754_finite false p 0
  | Zneg p => S754_finite true p 0
  end.

Definition zero : spec_float := S754_zero false.

(** [a / b] on two [int]s: the correctly rounded quotient; [None] stands
    for [ZeroDivisionError] and for [OverflowError]. *)
Definition truediv (a b : Z) : option spec_float :=
  if b =? 0 then None
  else match SFdiv prec emax (of_Z_exact a) (of_Z_exact b) with
       | S754_infinity _ => None
       | r => Some r
       end.

(** Round the rational [num / den] ([0 < den]) to the nearest integer, ties
    to even. *)
Definition round_half_even (num den : Z) : Z :=
  let q := num / den in
  let r := num mod den in
  match 2 * r ?= den with
  | Lt => q
  | Gt => q + 1
  | Eq => if Z.even q then q else q + 1
  end.

(** The magnitude of a finite float, times [scale], rounded to an integer. *)
Definition scaled_round (m : positive) (e : Z) (scale : Z) : Z :=
  if 0 <=? e then Zpos m * 2 ^ e * scale
  else round_half_even (Zpos m * scale) (2 ^ (- e)).

(** [round(x, 2)]: the decimal with two places nearest to the exact value
    of [x] (ties to even), converted back to the nearest double. *)
Definition round2 (x : spec_float) : option spec_float :=
  match x with
  | S754_finite s m e =>
      match scaled_round m e 100 with
      | Zpos n =>
          match SFdiv prec emax (S754_finite s n 0) (S754_finite false 100 0) with
          | S754_infinity _ => None
          | r => Some r
          end
      | _ => Some (S754_zero s)
      end
  | _ => Some x
  end.

(** [float(n)] *)
Definition of_int (n : Z) : spec_float := binary_normalize prec emax n 0 false.

(** [x * n] with [n] an [int], which is converted first. *)
Definition mul_int (x : spec_float) (n : Z) : spec_float :=
  SFmul prec emax x (of_int n).

(** [round(x)]: the nearest integer, ties to even; [None] stands for the
    [OverflowError] and [ValueError] raised on infinities and NaN. *)
Definition round_int (x : spec_float) : option Z :=
  match x with
  | S754_zero _ => Some 0
  | S754_finite s m e =>
      let n := scaled_round m e 1 in Some (if s then - n else n)
  | _ => None
  end.

End Float.

(** ** Cells of a data frame *)
Inductive cell : Type :=
  | NaN : cell
  | Str : string -> cell.

Definition cell_eq_str (c : cell) (s : string) : bool :=
  match c with
  | Str t => String.eqb t s
  | NaN => false
  end.

(** ** [calculate_hours] *)

Definition zero_hours : spec_float * string := (Float.zero, "00:00:00").

(** The body of the [try] block; [None] is a raised exception. *)
Definition calculate_hours_try (check_in check_out : string)
  : option (spec_float * string) :=
  let in_parts := Py.split_colon check_in in
  let out_parts := Py.split_colon check_out in
  if ((length in_parts <? 2) || (length out_parts <? 2))%nat then Some zero_hours
  else
    in_hours ← in_parts !! 0%nat ≫= Py.int;
    in_minutes ← in_parts !! 1%nat ≫= Py.int;
    in_seconds ← (if (2 <? length in_parts)%nat
                  then in_parts !! 2%nat ≫= Py.int else Some 0);
    out_hours ← out_parts !! 0%nat ≫= Py.int;
    out_minutes ← out_parts !! 1%nat ≫= Py.int;
    out_seconds ← (if (2 <? length out_parts)%nat
                   then out_parts !! 2%nat ≫= Py.int else Some 0);
    let total_in_seconds := in_hours * 3600 + in_minutes * 60 + in_seconds in
    let total_out_seconds := out_hours * 3600 + out_minutes * 60 + out_seconds in
    let diff_seconds := total_out_seconds - total_in_seconds in
    let hours := diff_seconds / 3600 in
    let minutes := (diff_seconds mod 3600) / 60 in
    let seconds := diff_seconds mod 60 in
    let time_format :=
      Py.format_02d hours ++ ":" ++ Py.format_02d minutes ++ ":"
        ++ Py.format_02d seconds in
    q ← Float.truediv diff_seconds 3600;
    r ← Float.round2 q;
    Some (r, time_format).

Definition calculate_hours (check_in check_out : cell) : spec_float * string :=
  match check_in, check_out with
  | Str ci, Str co =>
      if String.eqb ci "-" || String.eqb co "-"
         || String.eqb ci "" || String.eqb co ""
      then zero_hours
      else default zero_hours (calculate_hours_try ci co)
  | _, _ => zero_hours
  end.

(** ** [calculate_total_minutes] and [calculate_extra_minutes] *)

(** [round(hours * 60)]; [None] when [round] raises. *)
Definition calculate_total_minutes (hours : spec_float) : option Z :=
  Float.round_int (Float.mul_int hours 60).

Definition default_standard_minutes : Z := 540.

Definition calculate_extra_minutes (total_minutes standard_minutes : Z) : Z :=
  if total_minutes <=? standard_minutes then 0
  else total_minutes - standard_minutes.


(** ** [clean_report_data] *)

(** A row of the uploaded report.  [Person ID] and [Date] are indexed
    directly by the program; the other three columns are read with
    [row.get], so they may be absent from the upload ([None]). *)
Record report_row : Type := {
  person_id : cell;
  date : cell;
  check_in_col : option cell;
  check_out_col : option cell;
  attendance_status_col : option cell
}.

(** Element-wise operations of a pandas [Series] of strings. *)
Definition notna (c : cell) : bool :=
  match c with NaN => false | Str _ => true end.

(** [Series.str.strip()]: NaN stays NaN. *)
Definition str_strip (c : cell) : cell :=
  match c with NaN => NaN | Str s => Str (Py.strip s) end.

(** [series != s]: NaN differs from every string. *)
Definition cell_ne_str (c : cell) (s : string) : bool := negb (cell_eq_str c s).

(** [Series.astype(str)], also [str(value)]: NaN prints as [nan]. *)
Definition astype_str (c : cell) : string :=
  match c with NaN => "nan" | Str s => s end.

Definition header_token : string := "Check-In Time".

Definition valid_row (r : report_row) : bool :=
  notna (person_id r)
  && cell_ne_str (str_strip (person_id r)) ""
  && negb (Py.contains header_token (astype_str (person_id r)))
  && notna (date r)
  && cell_ne_str (str_strip (date r)) "".

Definition set_person_id (r : report_row) (c : cell) : report_row :=
  {| person_id := c; date := date r; check_in_col := check_in_col r;
     check_out_col := check_out_col r;
     attendance_status_col := attendance_status_col r |}.

(** The mask and the assignment, on the rows of a frame whose [Person ID]
    and [Date] columns hold strings. *)
Definition clean_rows (rows : list report_row) : list report_row :=
  let valid_rows := List.filter valid_row rows in
  map (fun r => set_person_id r
                  (Str (Py.remove_leading_apostrophe (astype_str (person_id r)))))
      valid_rows.

(** The frame [pd.read_csv] makes of an upload.  A column in which some
    field is text that is no number has the object dtype and holds [str]
    and NaN; a column of numbers only, or empty in every row, is numeric.
    The two flags say which holds of [Person ID] and of [Date]; the cells of
    a numeric column are numbers, which the rows below do not represent and
    the program never gets to read. *)
Record uploaded_frame : Type := {
  person_id_is_str : bool;
  date_is_str : bool;
  frame_rows : list report_row
}.

(** [None] is the [AttributeError] of the [.str] accessor, which lines 20
    and 23 apply to the two columns without [astype(str)]: "Can only use
    .str accessor with string values". *)
Definition clean_report_data (report_df : uploaded_frame)
  : option (list report_row) :=
  if person_id_is_str report_df && date_is_str report_df
  then Some (clean_rows (frame_rows report_df))
  else None.

(** ** [get_employee_database] *)

Record directory_entry : Type := {
  db_person_id : cell;
  db_employee_id : cell;
  db_employee_name : cell;
  db_department : cell
}.

(** The rows of the embedded CSV text, in order; an empty field reads as
    NaN.  The six trailing columns of the text are empty in every row and
    are never read. *)
Definition employee_table : list (cell * cell * cell * cell) := [
    (Str "1000", Str "1000", Str "THASLEEM VP", Str "COO");
    (Str "1001", Str "1001", Str "SHABIL CHAKKOLAYIL", Str "CSO");
    (Str "S003", Str "TTQA003", Str "Abdul Shifas", Str "Pre-Sales");
    (Str "S004", Str "TTQA004", Str "Shameer Chundekattil Abu", Str "Technical");
    (Str "S006", Str "TTQA006", Str "Shyamraj Sasidharan", Str "Pre-Sales");
    (Str "S007", Str "TTQA007", Str "Jobin Therath Joseph", Str "Technical");
    (Str "S012", Str "TTQA012", Str "Maneesh Mani Koroththazha", Str "Procurement");
    (Str "S021", Str "TTQA021", Str "Kishanthan Thiyagarajan", Str "Technical");
    (Str "S027", Str "TTQA027", Str "Anoop Aniyan", Str "Finance and Accounts");
    (NaN, Str "TTQA040", Str "Surendran Vinayagam Surendran", Str "Technical");
    (Str "S042", Str "TTQA042", Str "Shuhaib Muhammed Kutty", Str "Human Resources and Admin.");
    (Str "S088", Str "TTQA088", Str "Ratheesh Ittikkatt Velayudhan", Str "Procurement");
    (Str "S101", Str "TTQA101", Str "Jishnu Neriathraparambil Shibu", Str "Technical");
    (Str "S118", Str "TTQA118", Str "Mohammed Nasfer Valoth", Str "Renewals - Licensing");
    (Str "S124", Str "TTQA124", Str "Shamsudheen Kalli Kuniyil", Str "Human Resources and Admin.");
    (Str "S146", Str "TTQA146", Str "Muhammad Farash Kunhippurayil", Str "Technical");
    (Str "S151", Str "TTQA151", Str "Mohammed Ali Chelathoden Latif", Str "Pre-Sales");
    (Str "S160", Str "TTQA160", Str "Asharaf Naranath", Str "Finance and Accounts");
    (Str "S171", Str "TTQA171", Str "Nabil Jamal Vettikkal", Str "Sales");
    (Str "S173", Str "TTQA173", Str "Sreelaskshmi Pottekkatt Sudhi", Str "Marketing");
    (Str "S174", Str "TTQA174", Str "Irfan Kottukkal Ismail", Str "Support");
    (Str "TTQ200", Str "TTQA200", Str "Basheer Andanakathu Moidunni",
     Str "Human Resources and Admin.");
    (Str "S102", Str "TTQA201", Str "Sumesh K Sami", Str "Design & Lighting");
    (Str "S203", Str "TTQA203", Str "Muhammad Musthafa", Str "Pre-Sales");
    (Str "S206", Str "TTQA207", Str "Niyas Vayalil Muhammad Ismail",
     Str "Human Resources and Admin.");
    (Str "S221", Str "TTQA221", Str "Muhammad Hassan Malik", Str "Technical");
    (Str "TTQ219", Str "TTQA224", Str "Kirusanth Velayutham Anandarasa", Str "Technical");
    (Str "S225", Str "TTQA225", Str "Varun Puthan Purayil", Str "Technical");
    (Str "TTQ226", Str "TTQA226", Str "Yadhu Krishnan", Str "Design & Lighting");
    (Str "S214", Str "TTQA244", Str "Pranav Ponath Uthaman", Str "Design & Lighting");
    (Str "QA248", Str "TTQA248", Str "Muhammed Ali Jawahar Shajahan Naseela", Str "Support");
    (Str "QA250", Str "TTQA250", Str "Muhammad Abid Nasir", Str "Renewals - Licensing");
    (Str "S251", Str "TTQA251", Str "Shabin Ashif N. Parambil", Str "Human Resources and Admin.");
    (Str "TTQ252", Str "TTQA252", Str "Nidhisha Chandran", Str "Finance and Accounts");
    (Str "TTQ253", Str "TTQA253", Str "Mohamad Kawwam", Str "Marketing");
    (Str "TTQ254", Str "TTQA254", Str "Rafiyath Rafeeque Moidu", Str "Pre-Sales");
    (Str "TTQ255", Str "TTQA255", Str "Mudhasar Olavakkott S", Str "Support");
    (Str "TTQ263", Str "TTQA263", Str "Rocky Rajan Varughese", Str "Procurement");
    (Str "TTQ219", Str "TTQA272", Str "Nawaz Shereef Kareem", Str "Procurement");
    (Str "TTQ274", Str "TTQA274", Str "Burhan Mohammad Walid Alhaffar", Str "Technical");
    (Str "TTQ275", Str "TTQA275", Str "Balagopal Venugopal Kanika", Str "Procurement");
    (Str "TTQ281", Str "TTQA281", Str "Allwyn Solomon Rajit Singh", Str "Support");
    (Str "TTQ285", Str "TTQA285", Str "Jino Jose", Str "Design & Lighting");
    (Str "TTQ286", Str "TTQA286", Str "Anish Kumar Murugan", Str "Technical");
    (Str "TTQ288", Str "TTQA288", Str "Zeeshan Ul Haq", Str "Pre-Sales");
    (Str "TTQ298", Str "TTQA298", Str "Afsal Veluthandi Madathummal", Str "Support");
    (Str "TTQ301", Str "TTQA301", Str "Aafaq Burhanuddin Tisekar",
     Str "Human Resources and Admin.");
    (Str "TTQ302", Str "TTQA302", Str "Anshad Kelathum Parambil", Str "Finance and Accounts");
    (Str "TTQA303", Str "TTQA303", Str "Le Mogene De la Paz Tucker",
     Str "Human Resources and Admin.");
    (Str "TTQA304", Str "TTQA304", Str "Nihad El Harch", Str "Sales");
    (Str "TTQA308", Str "TTQA308", Str "Mohammad Mamoon Mohammad Haroon", Str "Pre-Sales");
    (Str "TTQA309", Str "TTQA309", Str "Tiago Andre Pereira Reis", Str "Sales");
    (Str "TTQA310", Str "TTQA310", Str "Akhil Thoppil Aliyar", Str "Sales");
    (Str "TTQA311", Str "TTQA311", Str "Mohammed Muzzammil Pradanakkaar", Str "Sales");
    (Str "TTQA312", Str "TTQA312", Str "Abdallah Mohammed Abdelhakem Elkady", Str "Sales");
    (Str "TTQA313", Str "TTQA313", Str "Mohammed Osman", Str "Pre-Sales");
    (NaN, Str "TTQA314", Str "Kamal Navas", Str "Pre-Sales");
    (NaN, Str "TTQA316", Str "Suhail Thayyil", Str "HRA")
  ].

Definition get_employee_database : list directory_entry :=
  map (fun '(p, i, n, d) =>
         {| db_person_id := p; db_employee_id := i;
            db_employee_name := n; db_department := d |})
      employee_table.

(** ** The directory mapping *)

Record employee_details : Type := {
  employee_id : cell;
  employee_name : cell;
  department : cell
}.

(** One iteration of the loop that fills [employee_mapping]. *)
Definition add_employee (m : gmap string employee_details) (row : directory_entry)
  : gmap string employee_details :=
  if notna (db_person_id row)
     && negb (String.eqb (Py.strip (astype_str (db_person_id row))) "")
  then <[ Py.strip (astype_str (db_person_id row)) :=
            {| employee_id := db_employee_id row;
               employee_name := db_employee_name row;
               department := db_department row |} ]> m
  else m.

Definition build_mapping (db_df : list directory_entry)
  : gmap string employee_details :=
  foldl add_employee ∅ db_df.

Definition employee_mapping : gmap string employee_details :=
  build_mapping get_employee_database.

(** ** The row loop *)

Record output_row : Type := {
  DATE : cell;
  DAY : string;
  NEW_EMPLOYEE_NO : cell;
  EMPLOYEE_NAME : cell;
  DEPARTMENT_NAME : cell;
  TIME_IN : cell;
  TIME_OUT : cell;
  TOTAL_HOURS : string;
  ATTENDANCE_STATUS : cell;
  EXTRA_MINUTES : string;
  NEW_INTIME : string;
  NEW_OUTTIME : string;
  NEW_TOTAL_HOURS : string;
  OT_UT : string;
  REMARKS : string;
  REASON : string;
  MANAGERS_COMMENTS : string
}.

(** [row.get(column, default)] *)
Definition row_get (column : option cell) (dflt : string) : cell :=
  default (Str dflt) column.

(** What one iteration of the loop over the cleaned report does. *)
Inductive outcome : Type :=
  | Skipped : outcome
  | Emitted : output_row -> outcome
  | Raised : outcome.

(** The standard library and pandas calls the program makes on dates. *)
Record date_library : Type := {
  (** [datetime.strptime(s, '%Y-%m-%d').strftime('%A')]; [None] when
      [strptime] raises *)
  strptime_weekday : string -> option string;
  (** [pd.to_datetime(column, errors='coerce')], [None] being NaT *)
  to_datetime : list cell -> list (option Z);
  (** [Timestamp.strftime('%Y-%m-%d')] *)
  strftime_ymd : Z -> string
}.

Section Pipeline.
Variable lib : date_library.

(** The argument is a string or NaN; on NaN [strptime] raises a
    [TypeError], which the bare [except] turns into the empty string. *)
Definition get_day_of_week (date_str : cell) : string :=
  match date_str with
  | Str s => default "" (strptime_weekday lib s)
  | NaN => ""
  end.

Definition process_row (mapping : gmap string employee_details)
    (row : report_row) : outcome :=
  let person_id := Py.strip (astype_str (person_id row)) in
  match mapping !! person_id with
  | None => Skipped
  | Some employee_details =>
      let check_in := row_get (check_in_col row) "-" in
      let check_out := row_get (check_out_col row) "-" in
      let '(hours, hours_formatted) := calculate_hours check_in check_out in
      match calculate_total_minutes hours with
      | None => Raised
      | Some total_minutes =>
          let extra_minutes :=
            calculate_extra_minutes total_minutes default_standard_minutes in
          Emitted
            {| DATE := row_get (Some (date row)) "";
               DAY := get_day_of_week (row_get (Some (date row)) "");
               NEW_EMPLOYEE_NO := employee_id employee_details;
               EMPLOYEE_NAME := employee_name employee_details;
               DEPARTMENT_NAME := department employee_details;
               TIME_IN := if cell_eq_str check_in "-" then Str "" else check_in;
               TIME_OUT := if cell_eq_str check_out "-" then Str "" else check_out;
               TOTAL_HOURS := hours_formatted;
               ATTENDANCE_STATUS := row_get (attendance_status_col row) "";
               EXTRA_MINUTES := Py.str_of_int extra_minutes;
               NEW_INTIME := ""; NEW_OUTTIME := ""; NEW_TOTAL_HOURS := "";
               OT_UT := ""; REMARKS := ""; REASON := "";
               MANAGERS_COMMENTS := "" |}
      end
  end.

(** The loop; [None] when an iteration raises. *)
Fixpoint build_output (mapping : gmap string employee_details)
    (report_df : list report_row) : option (list output_row) :=
  match report_df with
  | [] => Some []
  | row :: rest =>
      match process_row mapping row with
      | Skipped => build_output mapping rest
      | Emitted output_row => (output_row ::.) <$> build_output mapping rest
      | Raised => None
      end
  end.

(** *** Sorting *)

(** A row together with its parsed date. *)
Definition dated_row : Type := output_row * option Z.

Fixpoint attach_dates (rows : list output_row) (dates : list (option Z))
  : list dated_row :=
  match rows with
  | [] => []
  | r :: rs => (r, mjoin (head dates)) :: attach_dates rs (tail dates)
  end.

(** Column orders of [sort_values]: strings by code point, timestamps by
    value, missing values last. *)
Definition cell_le (a b : cell) : bool :=
  match a, b with
  | Str x, Str y => String.leb x y
  | _, NaN => true
  | NaN, Str _ => false
  end.

Definition cell_eqb (a b : cell) : bool :=
  match a, b with
  | Str x, Str y => String.eqb x y
  | NaN, NaN => true
  | _, _ => false
  end.

Definition date_le (a b : option Z) : bool :=
  match a, b with
  | Some x, Some y => x <=? y
  | _, None => true
  | None, Some _ => false
  end.

(** Lexicographic on ([NEW EMPLOYEE NO.], [DATE]). *)
Definition key_le (a b : dated_row) : bool :=
  if cell_eqb (NEW_EMPLOYEE_NO a.1) (NEW_EMPLOYEE_NO b.1)
  then date_le a.2 b.2
  else cell_le (NEW_EMPLOYEE_NO a.1) (NEW_EMPLOYEE_NO b.1).

Fixpoint insert_row (x : dated_row) (l : list dated_row) : list dated_row :=
  match l with
  | [] => [x]
  | y :: l' => if key_le x y then x :: y :: l' else y :: insert_row x l'
  end.

(** [sort_values(['NEW EMPLOYEE NO.', 'DATE'])], as a stable sort. *)
Definition sort_values (l : list dated_row) : list dated_row :=
  foldr insert_row [] l.

(** The frame after [to_datetime] and [sort_values]; [None] is the
    [KeyError] raised on the column-less frame built from no rows. *)
Definition sort_report (output_data : list output_row)
  : option (list dated_row) :=
  match output_data with
  | [] => None
  | _ => Some (sort_values
                 (attach_dates output_data (to_datetime lib (map DATE output_data))))
  end.

Definition set_DATE (o : output_row) (c : cell) : output_row :=
  {| DATE := c; DAY := DAY o; NEW_EMPLOYEE_NO := NEW_EMPLOYEE_NO o;
     EMPLOYEE_NAME := EMPLOYEE_NAME o; DEPARTMENT_NAME := DEPARTMENT_NAME o;
     TIME_IN := TIME_IN o; TIME_OUT := TIME_OUT o;
     TOTAL_HOURS := TOTAL_HOURS o; ATTENDANCE_STATUS := ATTENDANCE_STATUS o;
     EXTRA_MINUTES := EXTRA_MINUTES o; NEW_INTIME := NEW_INTIME o;
     NEW_OUTTIME := NEW_OUTTIME o; NEW_TOTAL_HOURS := NEW_TOTAL_HOURS o;
     OT_UT := OT_UT o; REMARKS := REMARKS o; REASON := REASON o;
     MANAGERS_COMMENTS := MANAGERS_COMMENTS o |}.

(** [output_df['DATE'].dt.strftime('%Y-%m-%d')] *)
Definition format_date (r : dated_row) : output_row :=
  set_DATE r.1 (match r.2 with
                | Some t => Str (strftime_ymd lib t)
                | None => NaN
                end).

(** The whole transform of an uploaded frame; [None] is the error
    reported by the enclosing [try]. *)
Definition generate_report (report_df : uploaded_frame)
  : option (list output_row) :=
  report_df ← clean_report_data report_df;
  output_data ← build_output employee_mapping report_df;
  sorted ← sort_report output_data;
  Some (map format_date sorted).

End Pipeline.


(** * Vocabulary of the properties *)

(** The parts of a time string that the program reads: the first three. *)
Definition part_read (s : string) (part : string) : Prop :=
  exists i : nat, (i < 3)%nat /\ Py.split_colon s !! i = Some part.

Definition malformed (s : string) : Prop :=
  (length (Py.split_colon s) < 2)%nat
  \/ exists part, part_read s part /\ Py.int part = None.

(** Missing, empty, the sentinel, or malformed. *)
Definition unusable (c : cell) : Prop :=
  match c with
  | NaN => True
  | Str s => s = "" \/ s = "-" \/ malformed s
  end.

(** The three reads of one side of the [try] block, taken together. *)
Definition read_parts (parts : list string) : option (Z * Z * Z) :=
  h ← parts !! 0%nat ≫= Py.int;
  m ← parts !! 1%nat ≫= Py.int;
  s ← (if (2 <? length parts)%nat then parts !! 2%nat ≫= Py.int else Some 0);
  Some (h, m, s).

(** What the [try] block computes from the two second counts. *)
Definition finish_hours (total_in_seconds total_out_seconds : Z)
  : option (spec_float * string) :=
  let diff_seconds := total_out_seconds - total_in_seconds in
  q ← Float.truediv diff_seconds 3600;
  r ← Float.round2 q;
  Some (r, Py.format_02d (diff_seconds / 3600) ++ ":"
             ++ Py.format_02d ((diff_seconds mod 3600) / 60) ++ ":"
             ++ Py.format_02d (diff_seconds mod 60)).

(** The person identifiers present in a directory, in order. *)
Definition person_ids (db_df : list directory_entry) : list string :=
  omap (fun row => match db_person_id row with
                   | Str s => Some s
                   | NaN => None
                   end) db_df.


(** A date library for examples: a date [YYYY-MM-DD] is ordered by the
    number [YYYYMMDD]; anything else is NaT, and no weekday is named. *)
Definition two_digits (a b : ascii) : option Z :=
  if Py.is_digit a && Py.is_digit b
  then Some (10 * Py.digit_value a + Py.digit_value b) else None.

Definition sample_parse (c : cell) : option Z :=
  match c with
  | Str (String y1 (String y2 (String y3 (String y4 (String "-"
      (String m1 (String m2 (String "-" (String d1 (String d2 EmptyString)))))))))) =>
      yh ← two_digits y1 y2; yl ← two_digits y3 y4;
      m ← two_digits m1 m2; d ← two_digits d1 d2;
      Some (((yh * 100 + yl) * 100 + m) * 100 + d)
  | _ => None
  end.

Definition sample_library : date_library :=
  {| strptime_weekday := fun _ => None;
     to_datetime := map sample_parse;
     strftime_ymd := fun t =>
       Py.str_of_int (t / 10000) ++ "-" ++ Py.format_02d ((t / 100) mod 100)
         ++ "-" ++ Py.format_02d (t mod 100) |}.

(** ** Vocabulary for [clean_report_data] *)

(** Blank after trimming: nothing but white space. *)
Fixpoint all_space (s : string) : Prop :=
  match s with
  | EmptyString => True
  | String c s' => Py.isspace c = true /\ all_space s'
  end.

Definition occurs_in (needle s : string) : Prop :=
  exists pre post : string, s = pre ++ needle ++ post.

(** The rows the sanitizer is to keep. *)
Definition keeps (r : report_row) : Prop :=
  exists p d : string,
    person_id r = Str p /\ date r = Str d
    /\ ~ all_space p /\ ~ all_space d /\ ~ occurs_in header_token p.

(** [q] is [p] without one leading apostrophe, if it has one. *)
Definition unquoted (p q : string) : Prop :=
  p = String "'" q \/ (q = p /\ forall t, p <> String "'" t).

(** [r'] is [r] with its identifier unquoted and nothing else changed. *)
Definition normalized (r r' : report_row) : Prop :=
  (exists p q, person_id r = Str p /\ person_id r' = Str q /\ unquoted p q)
  /\ date r' = date r
  /\ check_in_col r' = check_in_col r
  /\ check_out_col r' = check_out_col r
  /\ attendance_status_col r' = attendance_status_col r.

(** ** Vocabulary for the order of the report *)

Definition key_leP (a b : dated_row) : Prop := key_le a b = true.

(** ** Vocabulary for time strings *)

Fixpoint all_digits (s : string) : bool :=
  match s with
  | EmptyString => true
  | String c s' => Py.is_digit c && all_digits s'
  end.

(** The number a string of decimal digits denotes, [acc] being the value
    of the digits already read. *)
Fixpoint decimal (acc : Z) (s : string) : Z :=
  match s with
  | EmptyString => acc
  | String c s' => decimal (10 * acc + Py.digit_value c) s'
  end.

(** An hour, minute or second field: one or two decimal digits. *)
Definition time_field (s : string) (v : Z) : Prop :=
  all_digits s = true
  /\ (1 <= String.length s <= 2)%nat
  /\ v = decimal 0 s.

(** A well-formed time string, [H:M] or [H:M:S], and the number of seconds
    it denotes. *)
Inductive time_string : string -> Z -> Prop :=
  | time_HM h m vh vm :
      time_field h vh -> time_field m vm ->
      time_string (h ++ ":" ++ m) (vh * 3600 + vm * 60)
  | time_HMS h m s vh vm vs :
      time_field h vh -> time_field m vm -> time_field s vs ->
      time_string (h ++ ":" ++ m ++ ":" ++ s) (vh * 3600 + vm * 60 + vs).

(** [f] is the number [v] in decimal digits, padded with a zero to two
    places and no further. *)
Definition zero_padded (f : string) (v : Z) : bool :=
  all_digits f
  && (2 <=? String.length f)%nat
  && (decimal 0 f =? v)
  && ((String.length f =? 2)%nat || negb (String.prefix "0" f)).

(** [str] is the duration of [d] seconds written [HH:MM:SS]. *)
Definition zero_padded_hms (d : Z) (str : string) : Prop :=
  exists h m s : string,
    str = h ++ ":" ++ m ++ ":" ++ s
    /\ zero_padded h (d / 3600) = true
    /\ zero_padded m ((d mod 3600) / 60) = true
    /\ zero_padded s (d mod 60) = true.

(** [str] is a non-negative duration [H:M:S]: three fields of decimal
    digits, minutes and seconds below sixty. *)
Definition nonneg_duration (str : string) : Prop :=
  exists h m s : string,
    str = h ++ ":" ++ m ++ ":" ++ s
    /\ all_digits h = true /\ all_digits m = true /\ all_digits s = true
    /\ h <> "" /\ m <> "" /\ s <> ""
    /\ 0 <= decimal 0 m < 60 /\ 0 <= decimal 0 s < 60.

(** Zero, or a finite double of bounded mantissa and exponent: the range
    in which the hours of a time difference below [2 ^ 64] seconds lie. *)
Definition hours_range (x : spec_float) : Prop :=
  match x with
  | S754_zero _ => True
  | S754_finite _ m e => Zpos m <= 2 ^ 204 /\ e <= 409
  | _ => False
  end.

(** ** The statistics panel *)

#[global] Instance cell_eq_dec : EqDecision cell.
Proof. solve_decision. Defined.

(** Whether the loop finds the row's identifier in the mapping. *)
Definition matched (mapping : gmap string employee_details) (row : report_row)
  : bool :=
  match mapping !! Py.strip (astype_str (person_id row)) with
  | Some _ => true
  | None => false
  end.

(** The three metrics, in the order shown: [len(report_df)] of the cleaned
    frame, [len(output_data)], and the number of distinct values of the
    column [NEW EMPLOYEE NO.] ([Series.unique] keeps one NaN).  [None] when
    the transform has raised before reaching them. *)
Definition report_statistics (lib : date_library) (report_df : uploaded_frame)
  : option (nat * nat * nat) :=
  report_df ← clean_report_data report_df;
  output_data ← build_output lib employee_mapping report_df;
  sorted ← sort_report lib output_data;
  Some (length report_df, length output_data,
        length (remove_dups (map (fun r : dated_row => NEW_EMPLOYEE_NO r.1) sorted))).

(** What an emitted row takes from its input row and from the directory. *)
Definition joined (mapping : gmap string employee_details)
    (row : report_row) (o : output_row) : Prop :=
  exists details,
    mapping !! Py.strip (astype_str (person_id row)) = Some details
    /\ NEW_EMPLOYEE_NO o = employee_id details
    /\ EMPLOYEE_NAME o = employee_name details
    /\ DEPARTMENT_NAME o = department details
    /\ DATE o = date row
    /\ ATTENDANCE_STATUS o = row_get (attendance_status_col row) ""
    /\ TOTAL_HOURS o
       = (calculate_hours (row_get (check_in_col row) "-")
            (row_get (check_out_col row) "-")).2.

(** ** Vocabulary for the directory mapping *)

(** The key under which a directory row is stored, if it is stored. *)
Definition entry_key (row : directory_entry) : option string :=
  match db_person_id row with
  | Str s => if String.eqb (Py.strip s) "" then None else Some (Py.strip s)
  | NaN => None
  end.

Definition entry_details (row : directory_entry) : employee_details :=
  {| employee_id := db_employee_id row;
     employee_name := db_employee_name row;
     department := db_department row |}.

Definition stored_under (k : string) (row : directory_entry) : bool :=
  match entry_key row with
  | Some k' => String.eqb k' k
  | None => false
  end.

(** ** Vocabulary for the completion of the loop *)

(** A time cell the loop handles without raising: one that makes
    [calculate_hours] fall back to zero, or a well-formed time string. *)
Definition plain_time (c : cell) : Prop :=
  unusable c \/ exists s t, c = Str s /\ time_string s t.

(** A float that is zero or carries the sign [s]. *)
Definition has_sign (s : bool) (x : spec_float) : Prop :=
  match x with
  | S754_zero s' | S754_finite s' _ _ => s' = s
  | _ => False
  end.

(** ** [get_excel_download_link] *)

(** A data frame as the function uses it: the column titles and, for each
    row, its index label and its values. *)
Record data_frame : Type := {
  df_columns : list string;
  df_rows : list (Z * list cell)
}.

(** [str.isidentifier] on ASCII. *)
Definition is_letter (c : ascii) : bool :=
  let n := N_of_ascii c in
  ((65 <=? n) && (n <=? 90) || (97 <=? n) && (n <=? 122))%N.

Definition is_identifier (s : string) : bool :=
  match s with
  | EmptyString => false
  | String c r =>
      (is_letter c || Ascii.eqb c "_")
      && forallb (fun d => is_letter d || Py.is_digit d || Ascii.eqb d "_")
           (list_ascii_of_string r)
  end.

(** [keyword.kwlist] *)
Definition kwlist : list string :=
  ["False"; "None"; "True"; "and"; "as"; "assert"; "async"; "await"; "break";
   "class"; "continue"; "def"; "del"; "elif"; "else"; "except"; "finally";
   "for"; "from"; "global"; "if"; "import"; "in"; "is"; "lambda"; "nonlocal";
   "not"; "or"; "pass"; "raise"; "return"; "try"; "while"; "with"; "yield"].

Definition iskeyword (s : string) : bool := existsb (String.eqb s) kwlist.

(** The field names of [collections.namedtuple(name, fields, rename=True)]:
    a name that is no identifier, is a keyword, starts with an underscore or
    has been seen becomes [_index]. *)
Fixpoint rename_fields (field_names : list string) (index : nat)
    (seen : list string) : list string :=
  match field_names with
  | [] => []
  | name :: rest =>
      (if negb (is_identifier name) || iskeyword name
          || String.prefix "_" name || existsb (String.eqb name) seen
       then "_" ++ Py.str_of_int (Z.of_nat index)
       else name)
      :: rename_fields rest (S index) (name :: seen)
  end.

(** The fields of the tuples of [df.itertuples()]. *)
Definition itertuples_fields (df : data_frame) : list string :=
  rename_fields ("Index" :: df_columns df) 0 [].

Fixpoint index_of (name : string) (l : list string) : option nat :=
  match l with
  | [] => None
  | x :: l' => if String.eqb x name then Some 0%nat else S <$> index_of name l'
  end.

(** [df.columns.get_loc(name)]; [None] is the [KeyError]. *)
Definition get_loc (df : data_frame) (name : string) : option nat :=
  index_of name (df_columns df).

(** [row.NEW_EMPLOYEE_NO_] on a tuple of [itertuples]: the value of the
    column whose field has that name; [None] is the [AttributeError]. *)
Definition row_employee (df : data_frame) (row : Z * list cell) : option cell :=
  match index_of "NEW_EMPLOYEE_NO_" (itertuples_fields df) with
  | Some (S i) => row.2 !! i
  | _ => None
  end.

Definition employee_colors : list string :=
  ["FFFFFF"; "F2F2F2"; "EBF1DE"; "E6E0EC"; "DAEEF3"; "FFEBCC"; "F2DCDB";
   "EBF1DE"; "E6E0EC"].

(** [current_employee != value], the current employee being [None] before
    the first row; NaN differs from everything, itself included. *)
Definition employee_changed (current_employee : option cell) (value : cell)
  : bool :=
  match current_employee, value with
  | Some (Str a), Str b => negb (String.eqb a b)
  | _, _ => true
  end.

(** [str.lower] on ASCII. *)
Definition lower_char (c : ascii) : ascii :=
  let n := N_of_ascii c in
  if ((65 <=? n) && (n <=? 90))%N then ascii_of_N (n + 32) else c.

Fixpoint lower (s : string) : string :=
  match s with
  | EmptyString => EmptyString
  | String c r => String (lower_char c) (lower r)
  end.

(** The highlight of the status cell: fill and font colour.  A missing
    status is written as an empty cell, whose value prints as [None]. *)
Definition status_highlight (status : option cell) : option (string * string) :=
  let status_value :=
    lower (Py.strip (match status with Some (Str s) => s | _ => "None" end)) in
  if String.eqb status_value "normal" then Some ("C6EFCE", "006100")
  else if String.eqb status_value "absence" then Some ("FFC7CE", "9C0006")
  else None.

(** The style the banding loop gives a row: the background of the row and
    the highlight of its status cell. *)
Definition row_style : Type := (string * option (string * string))%type.

(** The loop over [df.itertuples()], from the state [(current_employee,
    color_index)]; [None] when an iteration raises. *)
Fixpoint band_rows (df : data_frame) (attendance_col_index : nat)
    (current_employee : option cell) (color_index : nat)
    (rows : list (Z * list cell)) : option (list row_style) :=
  match rows with
  | [] => Some []
  | row :: rest =>
      employee ← row_employee df row;
      let '(current_employee, color_index) :=
        if employee_changed current_employee employee
        then (Some employee, ((color_index + 1) mod length employee_colors)%nat)
        else (current_employee, color_index) in
      let row_fill := default "" (employee_colors !! color_index) in
      let status := row.2 !! (attendance_col_index - 1)%nat in
      ((row_fill, status_highlight status) ::.)
        <$> band_rows df attendance_col_index current_employee color_index rest
  end.

(** What openpyxl makes of the sheet: the bytes of the workbook written
    from the frame with the row styles (header style, borders and column
    widths are set by loops that raise nothing), in base 64. *)
Record excel_library : Type := {
  workbook_base64 : data_frame -> list row_style -> string
}.

(** The double quote character. *)
Definition dquote : string := String (ascii_of_N 34) EmptyString.

(** [None] is an exception leaving the function. *)
Definition get_excel_download_link (xl : excel_library) (df : data_frame)
    (filename : string) : option string :=
  attendance_col_index ← (fun i => S i) <$> get_loc df "ATTENDANCE STATUS";
  styles ← band_rows df attendance_col_index None 0 (df_rows df);
  let b64 := workbook_base64 xl df styles in
  Some ("<a href=" ++ dquote
          ++ "data:application/vnd.openxmlformats-officedocument.spreadsheetml.sheet;base64,"
          ++ b64 ++ dquote ++ " download=" ++ dquote ++ filename ++ dquote
          ++ " class=" ++ dquote ++ "btn btn-primary" ++ dquote
          ++ ">Download Excel Report</a>").

(** The frame [pd.DataFrame(output_data)], its columns in the order of the
    keys of [output_row]; the index labels are the positions in
    [output_data], which sorting permutes. *)
Definition report_columns : list string :=
  ["DATE"; "DAY"; "NEW EMPLOYEE NO."; "EMPLOYEE NAME"; "DEPARTMENT NAME";
   "TIME IN"; "TIME OUT"; "TOTAL HOURS"; "ATTENDANCE STATUS"; "EXTRA MINUTES";
   "NEW INTIME"; "NEW OUTTIME"; "NEW TOTAL HOURS"; "OT/UT"; "REMARKS";
   "REASON"; "MANAGER'S COMMENTS"].

Definition row_values (o : output_row) : list cell :=
  [DATE o; Str (DAY o); NEW_EMPLOYEE_NO o; EMPLOYEE_NAME o; DEPARTMENT_NAME o;
   TIME_IN o; TIME_OUT o; Str (TOTAL_HOURS o); ATTENDANCE_STATUS o;
   Str (EXTRA_MINUTES o); Str (NEW_INTIME o); Str (NEW_OUTTIME o);
   Str (NEW_TOTAL_HOURS o); Str (OT_UT o); Str (REMARKS o); Str (REASON o);
   Str (MANAGERS_COMMENTS o)].

(** A frame with the report's columns and the given rows, whatever their
    index labels. *)
Definition report_frame (labelled : list (Z * output_row)) : data_frame :=
  {| df_columns := report_columns;
     df_rows := map (fun r => (r.1, row_values r.2)) labelled |}.

(** ** Vocabulary for ASCII text *)

Fixpoint ascii_only (s : string) : Prop :=
  match s with
  | EmptyString => True
  | String c r => (N_of_ascii c < 128)%N /\ ascii_only r
  end.

(** An hour, minute or second part, of ASCII text, that [int] rejects. *)
Definition rejected_part (s part : string) : Prop :=
  part_read s part /\ ascii_only part /\ Py.int part = None.

(** Missing, empty, the sentinel, with fewer than two parts, or with a
    rejected hour, minute or second part. *)
Definition unreadable (c : cell) : Prop :=
  match c with
  | NaN => True
  | Str s =>
      s = "" \/ s = "-" \/ (length (Py.split_colon s) < 2)%nat
      \/ exists part, rejected_part s part
  end.

(** The frame of an upload whose two indexed columns hold strings. *)
Definition text_frame (rows : list report_row) : uploaded_frame :=
  {| person_id_is_str := true; date_is_str := true; frame_rows := rows |}.
(** * Properties *)

(** ** Overtime *)

(** C5: with the default standard of 540 minutes, [calculate_extra_minutes]
    is [max 0 (total_minutes - 540)] for every integer; in particular 540
    gives 0 and 600 gives 60. *)
Theorem calculate_extra_minutes_max :
  (forall total_minutes : Z,
     calculate_extra_minutes total_minutes default_standard_minutes
     = Z.max 0 (total_minutes - 540))
  /\ calculate_extra_minutes 540 default_standard_minutes = 0
  /\ calculate_extra_minutes 600 default_standard_minutes = 60.
Proof.
  split; [|split; reflexivity].
  intros t. unfold calculate_extra_minutes, default_standard_minutes.
  destruct (Z.leb_spec t 540); lia.
Qed.

(** ** Soft failure of [calculate_hours] *)

Lemma calculate_hours_try_short_in ci co :
  (length (Py.split_colon ci) < 2)%nat ->
  calculate_hours_try ci co = Some zero_hours.
Proof.
  intros H. unfold calculate_hours_try.
  apply Nat.ltb_lt in H. rewrite H. reflexivity.
Qed.

Lemma calculate_hours_try_short_out ci co :
  (length (Py.split_colon co) < 2)%nat ->
  calculate_hours_try ci co = Some zero_hours.
Proof.
  intros H. unfold calculate_hours_try.
  apply Nat.ltb_lt in H. rewrite H. rewrite orb_true_r. reflexivity.
Qed.

Lemma calculate_hours_try_unfold ci co :
  (2 <= length (Py.split_colon ci))%nat ->
  (2 <= length (Py.split_colon co))%nat ->
  calculate_hours_try ci co =
    '(ih, im, isec) ← read_parts (Py.split_colon ci);
    '(oh, om, osec) ← read_parts (Py.split_colon co);
    finish_hours (ih * 3600 + im * 60 + isec) (oh * 3600 + om * 60 + osec).
Proof.
  intros Hin Hout. unfold calculate_hours_try, read_parts, finish_hours.
  apply Nat.ltb_ge in Hin, Hout. rewrite Hin, Hout. cbn [orb].
  set (pin := Py.split_colon ci). set (pout := Py.split_colon co).
  set (a0 := pin !! 0%nat ≫= Py.int). set (a1 := pin !! 1%nat ≫= Py.int).
  set (a2 := if (2 <? length pin)%nat then pin !! 2%nat ≫= Py.int else Some 0).
  set (b0 := pout !! 0%nat ≫= Py.int). set (b1 := pout !! 1%nat ≫= Py.int).
  set (b2 := if (2 <? length pout)%nat then pout !! 2%nat ≫= Py.int else Some 0).
  clearbody a0 a1 a2 b0 b1 b2.
  destruct a0, a1, a2, b0, b1, b2; reflexivity.
Qed.

Lemma read_parts_bad parts part i :
  (i < 3)%nat -> parts !! i = Some part -> Py.int part = None ->
  read_parts parts = None.
Proof.
  intros Hi Hp Hint. unfold read_parts.
  assert (Hbind : parts !! i ≫= Py.int = None) by (rewrite Hp; exact Hint).
  destruct i as [|[|[|i]]]; [| | |lia].
  - rewrite Hbind. reflexivity.
  - rewrite Hbind. destruct (parts !! 0%nat ≫= Py.int); reflexivity.
  - assert (Hl : (2 < length parts)%nat) by (eapply lookup_lt_Some; eauto).
    apply Nat.ltb_lt in Hl. rewrite Hl, Hbind.
    destruct (parts !! 0%nat ≫= Py.int), (parts !! 1%nat ≫= Py.int); reflexivity.
Qed.

(** Whatever the other side is, a read part that [int] rejects makes the
    [try] block raise or leave through the length test. *)
Lemma calculate_hours_try_bad_part ci co part :
  part_read ci part \/ part_read co part -> Py.int part = None ->
  default zero_hours (calculate_hours_try ci co) = zero_hours.
Proof.
  intros Hread Hint.
  destruct (Nat.lt_ge_cases (length (Py.split_colon ci)) 2) as [Hin|Hin].
  { rewrite calculate_hours_try_short_in by exact Hin. reflexivity. }
  destruct (Nat.lt_ge_cases (length (Py.split_colon co)) 2) as [Hout|Hout].
  { rewrite calculate_hours_try_short_out by exact Hout. reflexivity. }
  rewrite calculate_hours_try_unfold by assumption.
  destruct Hread as [(i & Hi & Hp)|(i & Hi & Hp)].
  - rewrite (read_parts_bad _ _ _ Hi Hp Hint). reflexivity.
  - rewrite (read_parts_bad _ _ _ Hi Hp Hint).
    destruct (read_parts (Py.split_colon ci)) as [[[ih im] isec]|]; reflexivity.
Qed.

(** Every guard and every failing read leads to the zero result. *)
Lemma calculate_hours_unusable check_in check_out :
  unusable check_in \/ unusable check_out ->
  calculate_hours check_in check_out = zero_hours.
Proof.
  revert check_in check_out.
  intros [|ci] [|co] H; try reflexivity.
  unfold calculate_hours.
  destruct (String.eqb_spec ci "-"); [reflexivity|].
  destruct (String.eqb_spec co "-"); [reflexivity|].
  destruct (String.eqb_spec ci ""); [reflexivity|].
  destruct (String.eqb_spec co ""); [reflexivity|].
  cbn [orb].
  destruct H as [[?|[?|[Hs|(part & Hp & Hi)]]]|[?|[?|[Hs|(part & Hp & Hi)]]]];
    try contradiction.
  - rewrite calculate_hours_try_short_in by exact Hs. reflexivity.
  - apply (calculate_hours_try_bad_part ci co part); auto.
  - rewrite calculate_hours_try_short_out by exact Hs. reflexivity.
  - apply (calculate_hours_try_bad_part ci co part); auto.
Qed.

Lemma unreadable_unusable c : unreadable c -> unusable c.
Proof.
  destruct c as [|s]; [auto|]. cbn.
  intros [H|[H|[H|(part & Hp & _ & Hi)]]].
  - left. exact H.
  - right. left. exact H.
  - right. right. left. exact H.
  - right. right. right. exists part. split; assumption.
Qed.

(** C2 as stated fails: ["09:00:00:xx"] has a part between colons that
    does not parse as an integer, and yet the program returns nine hours
    for it, because it reads the first three parts only. *)
Lemma further_part_is_not_read :
  (exists part, part ∈ Py.split_colon "09:00:00:xx"
                /\ ascii_only part /\ Py.int part = None)
  /\ calculate_hours (Str "09:00:00:xx") (Str "18:00")
     = (Float.of_int 9, "09:00:00")
  /\ calculate_hours (Str "09:00:00:xx") (Str "18:00")
     <> (S754_zero false, "00:00:00").
Proof.
  split; [|split].
  - exists "xx". split; [|split].
    + change (Py.split_colon "09:00:00:xx") with ["09"; "00"; "00"; "xx"].
      do 3 right. left.
    + cbn. repeat split; reflexivity.
    + reflexivity.
  - vm_compute. reflexivity.
  - vm_compute. discriminate.
Qed.

(** C2, amended: when either argument is missing (not a string), empty, the
    sentinel ["-"], or malformed, [calculate_hours] returns exactly
    [(0.0, "00:00:00")]; the model is a total function, so nothing is
    raised.  Malformed means fewer than two parts between colons, or an
    hour, minute or second part, that is one of the first three, which
    [int] rejects; the text is ASCII.  In particular this holds of ["-"] and
    ["18:00"]. *)
Theorem calculate_hours_fails_soft :
  (forall check_in check_out : cell,
     unreadable check_in \/ unreadable check_out ->
     calculate_hours check_in check_out = (S754_zero false, "00:00:00"))
  /\ calculate_hours (Str "-") (Str "18:00") = (S754_zero false, "00:00:00").
Proof.
  split; [|reflexivity].
  intros check_in check_out H. apply calculate_hours_unusable.
  destruct H as [H|H]; [left|right]; apply unreadable_unusable, H.
Qed.

(** Each kind of unreadable input occurs. *)
Lemma calculate_hours_fails_soft_witness :
  calculate_hours NaN (Str "18:00") = (S754_zero false, "00:00:00")
  /\ calculate_hours (Str "09:00") (Str "") = (S754_zero false, "00:00:00")
  /\ calculate_hours (Str "0900") (Str "18:00") = (S754_zero false, "00:00:00")
  /\ calculate_hours (Str "09:00") (Str "18:0x") = (S754_zero false, "00:00:00").
Proof.
  pose proof (proj1 calculate_hours_fails_soft) as H.
  split; [apply H; left; exact I|].
  split; [apply H; right; left; reflexivity|].
  split; [apply H; left; right; right; left; vm_compute; lia|].
  apply H. right. right. right. right. exists "0x".
  split; [exists 1%nat; split; [lia|reflexivity]|].
  split; [cbn; repeat split; reflexivity|reflexivity].
Defined.

(** ** The employee directory *)

(** C4: the person identifier is not a key of the embedded directory.  The
    entries at positions 26 and 38 of the table (counting from 0, lines 258
    and 270 of the source) both carry [TTQ219], for the employees [TTQA224]
    and [TTQA272]; the mapping keeps the later one, so [TTQA224] cannot be
    reached from any person identifier. *)
Theorem directory_person_id_not_unique :
  ~ NoDup (person_ids get_employee_database)
  /\ (exists e1 e2,
        get_employee_database !! 26%nat = Some e1
        /\ get_employee_database !! 38%nat = Some e2
        /\ db_person_id e1 = Str "TTQ219" /\ db_person_id e2 = Str "TTQ219"
        /\ db_employee_id e1 = Str "TTQA224"
        /\ db_employee_id e2 = Str "TTQA272")
  /\ employee_id <$> employee_mapping !! "TTQ219" = Some (Str "TTQA272")
  /\ (forall k d, employee_mapping !! k = Some d ->
                  employee_id d <> Str "TTQA224").
Proof.
  split; [|split; [|split]].
  - intros H. pose proof (proj1 (NoDup_alt _) H) as Halt.
    specialize (Halt 25%nat 37%nat "TTQ219" eq_refl eq_refl). discriminate.
  - eexists _, _. repeat split; reflexivity.
  - vm_compute. reflexivity.
  - intros k d Hk Hd.
    assert (Hin : (k, d) ∈ map_to_list employee_mapping)
      by (apply elem_of_map_to_list; exact Hk).
    assert (Hall : forallb (fun kd : string * employee_details =>
                              negb (cell_eqb (employee_id kd.2) (Str "TTQA224")))
                           (map_to_list employee_mapping) = true)
      by (vm_compute; reflexivity).
    rewrite forallb_forall in Hall. apply list_elem_of_In in Hin.
    specialize (Hall _ Hin). cbn in Hall. rewrite Hd in Hall. discriminate.
Qed.

(** ** The row loop *)

Section RowLoop.
Variable lib : date_library.
Variable mapping : gmap string employee_details.

Lemma build_output_app l1 l2 :
  build_output lib mapping (l1 ++ l2)%list =
    o1 ← build_output lib mapping l1;
    o2 ← build_output lib mapping l2;
    Some (o1 ++ o2)%list.
Proof.
  induction l1 as [|r l1 IH]; cbn [app build_output].
  - destruct (build_output lib mapping l2); reflexivity.
  - destruct (process_row lib mapping r); [exact IH| |reflexivity].
    rewrite IH. destruct (build_output lib mapping l1); [|reflexivity].
    destruct (build_output lib mapping l2); reflexivity.
Qed.

(** C7: a row whose trimmed person identifier is not a key of the mapping
    is skipped by its iteration, which emits nothing and raises nothing; the
    loop then yields what it yields without that row, so only the number of
    matched records reflects the miss. *)
Theorem unmatched_row_dropped (l1 l2 : list report_row) (row : report_row) :
  mapping !! Py.strip (astype_str (person_id row)) = None ->
  process_row lib mapping row = Skipped
  /\ build_output lib mapping (l1 ++ row :: l2)%list
     = build_output lib mapping (l1 ++ l2)%list.
Proof.
  intros Hmiss.
  assert (Hskip : process_row lib mapping row = Skipped).
  { unfold process_row. rewrite Hmiss. reflexivity. }
  split; [exact Hskip|].
  rewrite !build_output_app. cbn [build_output]. rewrite Hskip. reflexivity.
Qed.

Lemma calculate_hours_sentinel check_in check_out :
  check_in = Str "-" \/ check_out = Str "-" ->
  calculate_hours check_in check_out = zero_hours.
Proof.
  intros H. apply calculate_hours_unusable.
  destruct H as [->| ->]; [left|right]; right; left; reflexivity.
Qed.

(** C10: for a matched record, a Check-In (Check-out) value equal to the
    sentinel ["-"] gives the empty string in TIME IN (TIME OUT), with TOTAL
    HOURS ["00:00:00"] and EXTRA MINUTES ["0"]; any other value is carried
    to TIME IN (TIME OUT) unchanged.  The values are those [row.get] reads,
    the sentinel being also its default for an absent column. *)
Theorem sentinel_times_are_blank (row : report_row) (details : employee_details) :
  mapping !! Py.strip (astype_str (person_id row)) = Some details ->
  let check_in := row_get (check_in_col row) "-" in
  let check_out := row_get (check_out_col row) "-" in
  (check_in = Str "-" \/ check_out = Str "-" ->
   exists o, process_row lib mapping row = Emitted o
             /\ TOTAL_HOURS o = "00:00:00" /\ EXTRA_MINUTES o = "0"
             /\ (check_in = Str "-" -> TIME_IN o = Str "")
             /\ (check_out = Str "-" -> TIME_OUT o = Str ""))
  /\ (forall o, process_row lib mapping row = Emitted o ->
                (check_in <> Str "-" -> TIME_IN o = check_in)
                /\ (check_out <> Str "-" -> TIME_OUT o = check_out)).
Proof.
  intros Hhit check_in check_out. split.
  - intros Hs. unfold process_row. rewrite Hhit.
    fold check_in check_out.
    rewrite (calculate_hours_sentinel _ _ Hs). cbn.
    eexists. split; [reflexivity|]. cbn.
    repeat split; intros ->; reflexivity.
  - intros o. unfold process_row. rewrite Hhit.
    fold check_in check_out.
    destruct (calculate_hours check_in check_out) as [hours fmt].
    destruct (calculate_total_minutes hours); [|discriminate].
    intros [= <-]. cbn. split; intros Hne.
    + destruct check_in as [|s]; [reflexivity|]. cbn.
      destruct (String.eqb_spec s "-"); [congruence|reflexivity].
    + destruct check_out as [|s]; [reflexivity|]. cbn.
      destruct (String.eqb_spec s "-"); [congruence|reflexivity].
Qed.

End RowLoop.

(** Instances of the two statements above on the embedded directory. *)
Lemma unmatched_row_dropped_witness :
  let row := {| person_id := Str " X999 "; date := Str "2024-01-01";
                check_in_col := Some (Str "09:00");
                check_out_col := Some (Str "18:00");
                attendance_status_col := Some (Str "normal") |} in
  process_row sample_library employee_mapping row = Skipped
  /\ build_output sample_library employee_mapping ([] ++ row :: [])%list
     = build_output sample_library employee_mapping ([] ++ [])%list.
Proof.
  intros row.
  apply (unmatched_row_dropped sample_library employee_mapping [] [] row).
  vm_compute. reflexivity.
Defined.

Lemma sentinel_times_are_blank_witness :
  let row := {| person_id := Str "S003"; date := Str "2024-01-01";
                check_in_col := Some (Str "-");
                check_out_col := Some (Str "18:00");
                attendance_status_col := Some (Str "absence") |} in
  exists o, process_row sample_library employee_mapping row = Emitted o
            /\ TOTAL_HOURS o = "00:00:00" /\ EXTRA_MINUTES o = "0"
            /\ TIME_IN o = Str "" /\ TIME_OUT o = Str "18:00".
Proof.
  intros row.
  destruct (sentinel_times_are_blank sample_library employee_mapping row
              {| employee_id := Str "TTQA003";
                 employee_name := Str "Abdul Shifas";
                 department := Str "Pre-Sales" |}) as [Hs Ho].
  { vm_compute. reflexivity. }
  destruct Hs as (o & Ho' & Ht & He & Hin & _); [left; reflexivity|].
  exists o. repeat split; try assumption.
  - apply Hin. reflexivity.
  - apply (Ho o Ho'). discriminate.
Defined.

(** ** The sanitizer *)

Section StripFacts.
Variable space : ascii -> bool.

Lemma lstrip_by_cases s :
  (Py.lstrip_by space s = EmptyString)
  \/ exists c r, Py.lstrip_by space s = String c r /\ space c = false.
Proof.
  induction s as [|c s IH]; cbn; [left; reflexivity|].
  destruct (space c) eqn:Hc; [exact IH|].
  right. exists c, s. split; [reflexivity|exact Hc].
Qed.

Lemma rstrip_by_nonspace c r :
  space c = false -> Py.rstrip_by space (String c r) <> EmptyString.
Proof.
  intros Hc. cbn. destruct (Py.rstrip_by space r); [rewrite Hc|]; discriminate.
Qed.

Lemma strip_by_empty_lstrip s :
  Py.strip_by space s = EmptyString <-> Py.lstrip_by space s = EmptyString.
Proof.
  unfold Py.strip_by. split.
  - intros H. destruct (lstrip_by_cases s) as [E|(c & r & E & Hc)]; [exact E|].
    rewrite E in H. exfalso. exact (rstrip_by_nonspace c r Hc H).
  - intros ->. reflexivity.
Qed.
End StripFacts.

Lemma strip_empty_iff s : Py.strip s = "" <-> all_space s.
Proof.
  unfold Py.strip. rewrite strip_by_empty_lstrip.
  induction s as [|c s IH]; cbn; [tauto|].
  destruct (Py.isspace c) eqn:Hc.
  - rewrite IH. tauto.
  - split; [discriminate|]. intros [H _]. discriminate.
Qed.

Lemma append_cons c a b : String c a ++ b = String c (a ++ b).
Proof. reflexivity. Qed.

Lemma prefix_iff a s : String.prefix a s = true <-> exists post, s = a ++ post.
Proof.
  revert s. induction a as [|c a IH]; intros s.
  - destruct s; cbn; split; eauto.
  - destruct s as [|d s]; cbn.
    + split; [discriminate|]. intros (post & H). discriminate.
    + destruct (Ascii.ascii_dec c d) as [->|Hne].
      * rewrite IH. split; intros (post & H); exists post.
        -- rewrite H. reflexivity.
        -- injection H as H. exact H.
      * split; [discriminate|]. intros (post & H).
        rewrite append_cons in H. congruence.
Qed.

Lemma contains_iff needle s : Py.contains needle s = true <-> occurs_in needle s.
Proof.
  unfold occurs_in. induction s as [|c s IH].
  - cbn [Py.contains]. rewrite orb_false_r, prefix_iff. split.
    + intros (post & H). exists "", post. exact H.
    + intros ([|x pre] & post & H); [exists post; exact H|discriminate].
  - cbn [Py.contains]. rewrite orb_true_iff, prefix_iff, IH. split.
    + intros [(post & H)|(pre & post & H)].
      * exists "", post. exact H.
      * exists (String c pre), post. rewrite H. reflexivity.
    + intros ([|x pre] & post & H).
      * left. exists post. exact H.
      * right. exists pre, post. rewrite append_cons in H. congruence.
Qed.

Lemma valid_row_iff r : valid_row r = true <-> keeps r.
Proof.
  unfold valid_row, keeps.
  destruct (person_id r) as [|p], (date r) as [|d]; cbn.
  - split; [discriminate|]. intros (? & ? & ? & _); discriminate.
  - split; [discriminate|]. intros (? & ? & ? & _); discriminate.
  - split; [rewrite !andb_false_r; discriminate|].
    intros (? & ? & _ & ? & _); discriminate.
  - unfold cell_ne_str. cbn.
    rewrite !andb_true_iff, !negb_true_iff.
    rewrite <- !not_true_iff_false, contains_iff, !String.eqb_eq, !strip_empty_iff.
    split.
    + intros [[[Hp Hh] _] Hd]. exists p, d. tauto.
    + intros (p' & d' & [= <-] & [= <-] & Hp & Hd & Hh). tauto.
Qed.

Lemma remove_leading_apostrophe_unquoted p :
  unquoted p (Py.remove_leading_apostrophe p).
Proof.
  destruct p as [|c p]; cbn.
  - right. split; [reflexivity|discriminate].
  - destruct (Ascii.eqb_spec c "'") as [->|Hne].
    + left. reflexivity.
    + right. split; [reflexivity|]. intros t [= ? _]. contradiction.
Qed.

Lemma unquoted_functional p q q' : unquoted p q -> unquoted p q' -> q = q'.
Proof.
  intros [->|[-> H]] [E|[-> H']].
  - congruence.
  - exfalso. exact (H' q eq_refl).
  - exfalso. exact (H _ E).
  - reflexivity.
Qed.

Lemma clean_rows_app l1 l2 :
  clean_rows (l1 ++ l2)%list
  = (clean_rows l1 ++ clean_rows l2)%list.
Proof.
  unfold clean_rows. rewrite List.filter_app, map_app. reflexivity.
Qed.

(** On string columns the sanitizer is a filter followed by a
    normalization, row by row and in order.  A row is kept exactly when its
    identifier and date are present and not blank and the identifier does
    not contain the header token; a kept row comes out with one leading
    apostrophe removed from its identifier and every other field unchanged;
    so a row whose identifier is missing or blank is dropped. *)
Lemma clean_rows_filter_normalize :
  (forall l1 l2 : list report_row,
     clean_rows (l1 ++ l2)%list
     = (clean_rows l1 ++ clean_rows l2)%list)
  /\ (forall r : report_row,
        (keeps r /\ exists r', clean_rows [r] = [r'] /\ normalized r r')
        \/ (~ keeps r /\ clean_rows [r] = []))
  /\ (forall (df : list report_row) (r' : report_row),
        r' ∈ clean_rows df <->
        exists r, r ∈ df /\ keeps r /\ normalized r r')
  /\ (forall (l1 l2 : list report_row) (r : report_row),
        (person_id r = NaN \/ exists p, person_id r = Str p /\ all_space p) ->
        clean_rows (l1 ++ r :: l2)%list
        = clean_rows (l1 ++ l2)%list).
Proof.
  assert (Hnorm : forall r, keeps r ->
            normalized r (set_person_id r
              (Str (Py.remove_leading_apostrophe (astype_str (person_id r)))))).
  { intros r (p & d & Hp & Hd & _). unfold normalized. cbn.
    split; [|tauto]. exists p, (Py.remove_leading_apostrophe p).
    rewrite Hp. cbn. auto using remove_leading_apostrophe_unquoted. }
  assert (Hfun : forall r r1 r2, normalized r r1 -> normalized r r2 -> r1 = r2).
  { intros r [p1 d1 a1 b1 c1] [p2 d2 a2 b2 c2].
    intros [(p & q & Hp & Hq & Hu) (? & ? & ? & ?)]
           [(p' & q' & Hp' & Hq' & Hu') (? & ? & ? & ?)].
    cbn in *. rewrite Hp in Hp'. injection Hp' as <-.
    rewrite (unquoted_functional _ _ _ Hu Hu') in Hq. congruence. }
  assert (Hone : forall r,
            (keeps r /\ exists r', clean_rows [r] = [r'] /\ normalized r r')
            \/ (~ keeps r /\ clean_rows [r] = [])).
  { intros r. unfold clean_rows. cbn [List.filter].
    destruct (valid_row r) eqn:Hv.
    - apply valid_row_iff in Hv. left. split; [exact Hv|].
      eexists. split; [reflexivity|]. apply Hnorm, Hv.
    - right. split; [|reflexivity].
      intros Hk. apply valid_row_iff in Hk. congruence. }
  assert (Hmem : forall df r', r' ∈ clean_rows df <->
                   exists r, r ∈ df /\ keeps r /\ normalized r r').
  { intros df r'. unfold clean_rows.
    rewrite list_elem_of_fmap. split.
    - intros (r & -> & Hin). apply list_elem_of_In, filter_In in Hin.
      destruct Hin as [Hin Hv]. apply valid_row_iff in Hv.
      exists r. split; [apply list_elem_of_In; exact Hin|]. auto.
    - intros (r & Hin & Hk & Hn). exists r. split.
      + eapply Hfun; [exact Hn|apply Hnorm, Hk].
      + apply list_elem_of_In, filter_In. split.
        * apply list_elem_of_In. exact Hin.
        * apply valid_row_iff. exact Hk. }
  split; [exact clean_rows_app|].
  split; [exact Hone|]. split; [exact Hmem|].
  intros l1 l2 r Hblank.
  change (r :: l2) with ([r] ++ l2)%list.
  rewrite !clean_rows_app.
  destruct (Hone r) as [[(p1 & d1 & Hp1 & _ & Hns & _) _]|[_ ->]]; [|reflexivity].
  exfalso. destruct Hblank as [E|(p & E & Hsp)]; [congruence|].
  rewrite E in Hp1. injection Hp1 as <-. contradiction.
Qed.



(** ** The order of the report *)

Lemma string_leb_refl s : String.leb s s = true.
Proof. destruct (String.leb_total s s); assumption. Qed.

Lemma ascii_compare_refl c : Ascii.compare c c = Eq.
Proof. apply N.compare_refl. Qed.

Lemma string_leb_trans a b c :
  String.leb a b = true -> String.leb b c = true -> String.leb a c = true.
Proof.
  unfold String.leb. revert b c.
  induction a as [|x a IH]; intros [|y b] [|z c]; cbn; try congruence.
  unfold Ascii.compare.
  destruct (N.compare_spec (N_of_ascii x) (N_of_ascii y)) as [Exy|Lxy|Gxy];
    destruct (N.compare_spec (N_of_ascii y) (N_of_ascii z)) as [Eyz|Lyz|Gyz];
    try congruence; intros Hab Hbc.
  - rewrite Exy, Eyz, N.compare_refl. exact (IH _ _ Hab Hbc).
  - rewrite Exy. apply N.compare_lt_iff in Lyz. rewrite Lyz. reflexivity.
  - rewrite <- Eyz. apply N.compare_lt_iff in Lxy. rewrite Lxy. reflexivity.
  - assert (L : (N_of_ascii x < N_of_ascii z)%N) by lia.
    apply N.compare_lt_iff in L. rewrite L. reflexivity.
Qed.

Lemma cell_eqb_eq a b : cell_eqb a b = true <-> a = b.
Proof.
  destruct a as [|x], b as [|y]; cbn; try (split; congruence).
  rewrite String.eqb_eq. split; congruence.
Qed.

Lemma cell_le_refl a : cell_le a a = true.
Proof. destruct a; cbn; [reflexivity|apply string_leb_refl]. Qed.

Lemma cell_le_trans a b c :
  cell_le a b = true -> cell_le b c = true -> cell_le a c = true.
Proof.
  destruct a, b, c; cbn; try congruence. apply string_leb_trans.
Qed.

Lemma cell_le_antisym a b : cell_le a b = true -> cell_le b a = true -> a = b.
Proof.
  destruct a as [|x], b as [|y]; cbn; try congruence.
  intros H1 H2. f_equal. apply String.leb_antisym; assumption.
Qed.

Lemma cell_le_total a b : cell_le a b = true \/ cell_le b a = true.
Proof.
  destruct a as [|x], b as [|y]; cbn; auto. apply String.leb_total.
Qed.

Lemma date_le_trans a b c :
  date_le a b = true -> date_le b c = true -> date_le a c = true.
Proof. destruct a, b, c; cbn; try congruence. lia. Qed.

Lemma date_le_total a b : date_le a b = true \/ date_le b a = true.
Proof. destruct a, b; cbn; auto. lia. Qed.

Lemma key_le_employee a b :
  key_leP a b -> cell_le (NEW_EMPLOYEE_NO a.1) (NEW_EMPLOYEE_NO b.1) = true.
Proof.
  unfold key_leP, key_le.
  destruct (cell_eqb _ _) eqn:E; [|auto].
  apply cell_eqb_eq in E. rewrite E. intros _. apply cell_le_refl.
Qed.

Lemma key_le_date a b :
  key_leP a b -> NEW_EMPLOYEE_NO a.1 = NEW_EMPLOYEE_NO b.1 ->
  date_le a.2 b.2 = true.
Proof.
  unfold key_leP, key_le. intros H E.
  apply cell_eqb_eq in E. rewrite E in H. exact H.
Qed.

Lemma key_le_total a b : key_leP a b \/ key_leP b a.
Proof.
  unfold key_leP, key_le.
  destruct (cell_eqb (NEW_EMPLOYEE_NO a.1) (NEW_EMPLOYEE_NO b.1)) eqn:E.
  - apply cell_eqb_eq in E. rewrite E.
    rewrite (proj2 (cell_eqb_eq _ _) eq_refl). apply date_le_total.
  - destruct (cell_eqb (NEW_EMPLOYEE_NO b.1) (NEW_EMPLOYEE_NO a.1)) eqn:E'.
    + apply cell_eqb_eq in E'. rewrite E' in E.
      rewrite (proj2 (cell_eqb_eq _ _) eq_refl) in E. discriminate.
    + apply cell_le_total.
Qed.

#[local] Instance key_le_transitive : Transitive key_leP.
Proof.
  intros a b c Hab Hbc.
  pose proof (key_le_employee _ _ Hab) as Eab.
  pose proof (key_le_employee _ _ Hbc) as Ebc.
  unfold key_leP, key_le.
  destruct (cell_eqb (NEW_EMPLOYEE_NO a.1) (NEW_EMPLOYEE_NO c.1)) eqn:E.
  - apply cell_eqb_eq in E.
    assert (Eb : NEW_EMPLOYEE_NO a.1 = NEW_EMPLOYEE_NO b.1).
    { apply cell_le_antisym; [exact Eab|]. rewrite E. exact Ebc. }
    eapply date_le_trans.
    + apply key_le_date; [exact Hab|exact Eb].
    + apply key_le_date; [exact Hbc|congruence].
  - eapply cell_le_trans; eassumption.
Qed.

Lemma insert_row_perm x l : insert_row x l ≡ₚ x :: l.
Proof.
  induction l as [|y l IH]; cbn; [reflexivity|].
  destruct (key_le x y); [reflexivity|].
  rewrite IH. apply Permutation_swap.
Qed.

Lemma sort_values_perm l : sort_values l ≡ₚ l.
Proof.
  induction l as [|x l IH]; cbn; [reflexivity|].
  rewrite insert_row_perm, IH. reflexivity.
Qed.

Lemma insert_row_sorted x l :
  StronglySorted key_leP l -> StronglySorted key_leP (insert_row x l).
Proof.
  induction l as [|y l IH]; cbn; intros Hs.
  - constructor; constructor.
  - apply StronglySorted_inv in Hs as [Hl Hy].
    destruct (key_le x y) eqn:Hxy.
    + constructor; [constructor; assumption|].
      constructor; [exact Hxy|].
      eapply Forall_impl; [exact Hy|]. intros z Hz. etransitivity; eassumption.
    + constructor; [apply IH, Hl|].
      rewrite insert_row_perm. constructor; [|exact Hy].
      destruct (key_le_total x y) as [H|H]; [unfold key_leP in H; congruence|exact H].
Qed.

Lemma sort_values_sorted l : StronglySorted key_leP (sort_values l).
Proof.
  induction l as [|x l IH]; cbn; [constructor|].
  apply insert_row_sorted, IH.
Qed.

Lemma StronglySorted_lookup (l : list dated_row) p q a b :
  StronglySorted key_leP l -> (p < q)%nat ->
  l !! p = Some a -> l !! q = Some b -> key_leP a b.
Proof.
  intros Hs. revert p q. induction Hs as [|x l Hs IH Hx]; intros p q Hpq Hp Hq.
  - discriminate.
  - destruct q as [|q]; [lia|]. cbn in Hq. destruct p as [|p]; cbn in Hp.
    + injection Hp as <-. rewrite Forall_forall in Hx.
      apply Hx. eapply list_elem_of_lookup_2. exact Hq.
    + apply (IH p q); [lia|assumption..].
Qed.

Lemma sorted_dates_ascend (l : list dated_row) p q rp rq dp dq :
  StronglySorted key_leP l ->
  l !! p = Some rp -> l !! q = Some rq ->
  NEW_EMPLOYEE_NO rp.1 = NEW_EMPLOYEE_NO rq.1 ->
  rp.2 = Some dp -> rq.2 = Some dq -> dp < dq -> (p < q)%nat.
Proof.
  intros Hs Hp Hq He Hdp Hdq Hlt.
  destruct (Nat.lt_total p q) as [H|[H|H]]; [exact H|exfalso..].
  - subst q. rewrite Hp in Hq. injection Hq as <-.
    rewrite Hdp in Hdq. injection Hdq as <-. lia.
  - pose proof (StronglySorted_lookup l q p rq rp Hs H Hq Hp) as Hle.
    apply key_le_date in Hle; [|congruence].
    rewrite Hdp, Hdq in Hle. cbn in Hle. lia.
Qed.

Lemma sorted_employee_contiguous (l : list dated_row) p q k rp rq rk :
  StronglySorted key_leP l -> (p <= q <= k)%nat ->
  l !! p = Some rp -> l !! q = Some rq -> l !! k = Some rk ->
  NEW_EMPLOYEE_NO rp.1 = NEW_EMPLOYEE_NO rk.1 ->
  NEW_EMPLOYEE_NO rq.1 = NEW_EMPLOYEE_NO rp.1.
Proof.
  intros Hs [Hpq Hqk] Hp Hq Hk He.
  destruct (decide (p = q)) as [->|Hne1]; [congruence|].
  destruct (decide (q = k)) as [->|Hne2]; [congruence|].
  assert (H1 : key_leP rp rq) by (eapply (StronglySorted_lookup l p q); eauto; lia).
  assert (H2 : key_leP rq rk) by (eapply (StronglySorted_lookup l q k); eauto; lia).
  apply key_le_employee in H1, H2. rewrite <- He in H2.
  apply cell_le_antisym; assumption.
Qed.

Lemma generate_report_unfold lib report_df report :
  generate_report lib report_df = Some report ->
  person_id_is_str report_df = true /\ date_is_str report_df = true
  /\ exists output_data sorted,
       build_output lib employee_mapping (clean_rows (frame_rows report_df))
         = Some output_data
       /\ sort_report lib output_data = Some sorted
       /\ report = map (format_date lib) sorted.
Proof.
  unfold generate_report, clean_report_data.
  destruct (person_id_is_str report_df); [|discriminate].
  destruct (date_is_str report_df); [|discriminate].
  cbn [andb mbind option_bind].
  destruct (build_output lib employee_mapping (clean_rows (frame_rows report_df)))
    as [out|]; [|discriminate].
  cbn [mbind option_bind].
  destruct (sort_report lib out) as [sorted|] eqn:Es; [|discriminate].
  cbn [mbind option_bind]. intros H.
  split; [reflexivity|]. split; [reflexivity|].
  exists out, sorted. split; [reflexivity|]. split; [exact Es|congruence].
Qed.

Lemma sort_report_sorted lib out sorted :
  sort_report lib out = Some sorted ->
  sorted = sort_values (attach_dates out (to_datetime lib (map DATE out))).
Proof.
  unfold sort_report. destruct out as [|o out]; [discriminate|]. congruence.
Qed.

(** C8: the report is the frame sorted by employee number, then by parsed
    date: [sorted], the frame after [sort_values], each row with its parsed
    date, is a permutation of the emitted rows that is ordered by the key
    [(NEW EMPLOYEE NO., DATE)], strings by code point and missing values
    last, and the report is that frame with the dates printed back.  So the
    employee numbers ascend down the report; of two rows with the same
    employee number and different parsed dates the one with the earlier
    date comes first; and the rows of one employee number are contiguous. *)
Theorem report_sorted_by_employee_then_date
    (lib : date_library) (report_df : uploaded_frame) (report : list output_row) :
  generate_report lib report_df = Some report ->
  exists (output_data : list output_row) (sorted : list dated_row),
    build_output lib employee_mapping (clean_rows (frame_rows report_df))
      = Some output_data
    /\ sorted ≡ₚ attach_dates output_data (to_datetime lib (map DATE output_data))
    /\ report = map (format_date lib) sorted
    /\ StronglySorted key_leP sorted
    /\ (forall p q op oq,
          (p < q)%nat -> report !! p = Some op -> report !! q = Some oq ->
          cell_le (NEW_EMPLOYEE_NO op) (NEW_EMPLOYEE_NO oq) = true)
    /\ (forall p q rp rq dp dq,
          sorted !! p = Some rp -> sorted !! q = Some rq ->
          NEW_EMPLOYEE_NO rp.1 = NEW_EMPLOYEE_NO rq.1 ->
          rp.2 = Some dp -> rq.2 = Some dq -> dp < dq -> (p < q)%nat)
    /\ (forall p q k rp rq rk,
          (p <= q <= k)%nat ->
          sorted !! p = Some rp -> sorted !! q = Some rq -> sorted !! k = Some rk ->
          NEW_EMPLOYEE_NO rp.1 = NEW_EMPLOYEE_NO rk.1 ->
          NEW_EMPLOYEE_NO rq.1 = NEW_EMPLOYEE_NO rp.1).
Proof.
  intros H.
  destruct (generate_report_unfold _ _ _ H) as (_ & _ & out & sorted & Ho & Hs & Hr).
  pose proof (sort_report_sorted _ _ _ Hs) as E.
  assert (Hsorted : StronglySorted key_leP sorted)
    by (rewrite E; apply sort_values_sorted).
  exists out, sorted.
  split; [exact Ho|]. split; [rewrite E; apply sort_values_perm|].
  split; [exact Hr|]. split; [exact Hsorted|]. split; [|split].
  - intros p q op oq Hpq Hp Hq. rewrite Hr in Hp, Hq.
    rewrite list_lookup_fmap in Hp, Hq.
    destruct (sorted !! p) as [rp|] eqn:Ep; [|discriminate].
    destruct (sorted !! q) as [rq|] eqn:Eq; [|discriminate].
    cbn in Hp, Hq. injection Hp as <-. injection Hq as <-.
    exact (key_le_employee _ _ (StronglySorted_lookup sorted p q rp rq Hsorted Hpq Ep Eq)).
  - intros p q rp rq dp dq. apply sorted_dates_ascend. exact Hsorted.
  - intros p q k rp rq rk. apply sorted_employee_contiguous. exact Hsorted.
Qed.

(** Three records of two employees, uploaded out of order. *)
Lemma report_sorted_by_employee_then_date_witness :
  let row pid d := {| person_id := Str pid; date := Str d;
                      check_in_col := Some (Str "09:00");
                      check_out_col := Some (Str "18:00");
                      attendance_status_col := Some (Str "normal") |} in
  let report_df := text_frame [row "S004" "2024-01-03"; row "S003" "2024-01-02";
                               row "S004" "2024-01-01"] in
  exists report,
    generate_report sample_library report_df = Some report
    /\ map (fun o => (NEW_EMPLOYEE_NO o, DATE o)) report
       = [(Str "TTQA003", Str "2024-01-02"); (Str "TTQA004", Str "2024-01-01");
          (Str "TTQA004", Str "2024-01-03")]
    /\ (forall p q op oq,
          (p < q)%nat -> report !! p = Some op -> report !! q = Some oq ->
          cell_le (NEW_EMPLOYEE_NO op) (NEW_EMPLOYEE_NO oq) = true)
    /\ exists sorted, report = map (format_date sample_library) sorted
         /\ StronglySorted key_leP sorted.
Proof.
  intros row report_df.
  destruct (generate_report sample_library report_df) as [report|] eqn:E;
    [|vm_compute in E; discriminate].
  exists report. split; [reflexivity|]. split.
  - vm_compute in E. injection E as <-. reflexivity.
  - destruct (report_sorted_by_employee_then_date sample_library report_df report E)
      as (output_data & sorted & _ & _ & Hr & Hs & He & _).
    split; [exact He|]. exists sorted. split; assumption.
Defined.

(** ** Binary64: the operations of the program do not overflow *)

Lemma digits2_pos_bound p : Zpos p < 2 ^ Zpos (digits2_pos p).
Proof.
  induction p as [p IH|p IH|]; cbn [digits2_pos]; [| |reflexivity].
  - rewrite Pos2Z.inj_succ, Z.pow_succ_r by lia. lia.
  - rewrite Pos2Z.inj_succ, Z.pow_succ_r by lia. lia.
Qed.

Lemma digits2_pos_low p : 2 ^ (Zpos (digits2_pos p) - 1) <= Zpos p.
Proof.
  induction p as [p IH|p IH|]; cbn [digits2_pos]; [| |cbn; lia].
  - rewrite Pos2Z.inj_succ.
    replace (Z.succ (Zpos (digits2_pos p)) - 1)
      with (Z.succ (Zpos (digits2_pos p) - 1)) by lia.
    rewrite Z.pow_succ_r by lia. lia.
  - rewrite Pos2Z.inj_succ.
    replace (Z.succ (Zpos (digits2_pos p)) - 1)
      with (Z.succ (Zpos (digits2_pos p) - 1)) by lia.
    rewrite Z.pow_succ_r by lia. lia.
Qed.

Lemma Zdigits2_nonneg m : 0 <= Zdigits2 m.
Proof. destruct m; cbn; lia. Qed.

Lemma Zdigits2_bound m : 0 <= m -> m < 2 ^ Zdigits2 m.
Proof.
  destruct m as [|p|p]; cbn [Zdigits2]; [cbn; lia| |lia].
  intros _. apply digits2_pos_bound.
Qed.

Lemma Zdigits2_le m D : 0 <= m < 2 ^ D -> 0 <= D -> Zdigits2 m <= D.
Proof.
  intros [Hm HD] H0. destruct m as [|p|p]; cbn [Zdigits2]; [lia| |lia].
  pose proof (digits2_pos_low p) as Hlow.
  destruct (Z.le_gt_cases (Zpos (digits2_pos p)) D) as [H|H]; [exact H|].
  exfalso.
  assert (2 ^ D <= 2 ^ (Zpos (digits2_pos p) - 1))
    by (apply Z.pow_le_mono_r; lia).
  lia.
Qed.

Lemma iter_pos_invariant {A} (f : A -> A) (P : A -> Prop) :
  (forall x, P x -> P (f x)) -> forall p x, P x -> P (SpecFloat.iter_pos f p x).
Proof.
  intros Hf. induction p as [p IH|p IH|]; intros x Hx; cbn; auto.
Qed.

Lemma shr_1_bounds M mrs :
  0 <= shr_m mrs <= M -> 0 <= shr_m (shr_1 mrs) <= M.
Proof.
  destruct mrs as [m r s]. cbn [shr_m].
  destruct m as [|[p|p|]|p]; cbn; lia.
Qed.

Lemma shr_record_of_loc_m m l : shr_m (shr_record_of_loc m l) = m.
Proof. destruct l as [|[]]; reflexivity. Qed.

Lemma shr_fexp_bounds m e l mrs e' :
  0 <= m ->
  shr_fexp Float.prec Float.emax m e l = (mrs, e') ->
  0 <= shr_m mrs <= m
  /\ (e' = e \/ e' = fexp Float.prec Float.emax (Zdigits2 m + e)).
Proof.
  intros Hm. unfold shr_fexp, shr.
  destruct (fexp Float.prec Float.emax (Zdigits2 m + e) - e) as [|p|p] eqn:E;
    intros [= <- <-].
  - rewrite shr_record_of_loc_m. split; [lia|left; reflexivity].
  - split; [|right; lia].
    apply (iter_pos_invariant shr_1 (fun x => 0 <= shr_m x <= m)).
    + intros x. apply shr_1_bounds.
    + rewrite shr_record_of_loc_m. lia.
  - rewrite shr_record_of_loc_m. split; [lia|left; reflexivity].
Qed.

Lemma round_nearest_even_bounds m l :
  0 <= m -> 0 <= round_nearest_even m l <= m + 1.
Proof.
  intros Hm. destruct l as [|[]]; cbn; try lia.
  destruct (Z.even m); lia.
Qed.

Lemma fexp_le x : fexp Float.prec Float.emax x <= Z.max (x - 53) (-1074).
Proof. unfold fexp, emin, Float.prec, Float.emax. lia. Qed.

(** A datum below [2 ^ D] with exponent at most [E] rounds to zero or to a
    finite double, as long as [2 * D + E] stays clear of the largest
    exponent. *)
Lemma binary_round_aux_finite s m e l D E :
  0 <= m < 2 ^ D -> e <= E -> 0 <= D -> 0 <= E -> 2 * D + E + 1 <= 971 ->
  match binary_round_aux Float.prec Float.emax s m e l with
  | S754_zero s' => s' = s
  | S754_finite s' m' e' => s' = s /\ Zpos m' <= 2 ^ D /\ e' <= 2 * D + E + 1
  | _ => False
  end.
Proof.
  intros [Hm0 HmD] He HD HE Hfit. unfold binary_round_aux.
  destruct (shr_fexp Float.prec Float.emax m e l) as [mrs1 e1] eqn:E1.
  apply shr_fexp_bounds in E1 as [Hm1 He1]; [|exact Hm0].
  set (m1 := round_nearest_even (shr_m mrs1) (loc_of_shr_record mrs1)).
  assert (Hm1' : 0 <= m1 <= shr_m mrs1 + 1)
    by (apply round_nearest_even_bounds; lia).
  destruct (shr_fexp Float.prec Float.emax m1 e1 loc_Exact) as [mrs2 e2] eqn:E2.
  apply shr_fexp_bounds in E2 as [Hm2 He2]; [|lia].
  pose proof (Zdigits2_le m D (conj Hm0 HmD) HD) as Hd.
  pose proof (Zdigits2_nonneg m) as Hd0.
  assert (Hd1 : Zdigits2 m1 <= D + 1).
  { apply Zdigits2_le; [|lia]. rewrite Z.pow_add_r, Z.pow_1_r by lia. lia. }
  pose proof (Zdigits2_nonneg m1) as Hd10.
  pose proof (fexp_le (Zdigits2 m + e)) as F1.
  pose proof (fexp_le (Zdigits2 m1 + e1)) as F2.
  assert (He2' : e2 <= 2 * D + E + 1) by lia.
  destruct (shr_m mrs2) as [|p|p] eqn:Em2; [reflexivity| |lia].
  replace (e2 <=? Float.emax - Float.prec) with true
    by (symmetry; apply Z.leb_le; unfold Float.emax, Float.prec; lia).
  split; [reflexivity|]. split; [lia|exact He2'].
Qed.

(** The quotient of two positive integers, the divisor below [2 ^ 12]. *)
Lemma SFdiv_int_finite s (n k : positive) D :
  Zpos n < 2 ^ D -> 65 <= D <= 400 -> Zpos k < 2 ^ 12 ->
  match SFdiv Float.prec Float.emax (S754_finite s n 0) (S754_finite false k 0) with
  | S754_zero s' => s' = s
  | S754_finite s' m e => s' = s /\ Zpos m <= 2 ^ D /\ e <= 2 * D + 1
  | _ => False
  end.
Proof.
  intros Hn HD Hk. cbn [SFdiv]. unfold SFdiv_core_binary.
  set (d1 := Zdigits2 (Zpos n)). set (d2 := Zdigits2 (Zpos k)).
  set (e' := Z.min (fexp Float.prec Float.emax (d1 + 0 - (d2 + 0))) (0 - 0)).
  set (m' := match 0 - 0 - e' with
             | Zpos _ => Z.shiftl (Zpos n) (0 - 0 - e')
             | Z0 => Zpos n
             | Zneg _ => 0
             end).
  assert (Hd2 : d2 <= 12) by (apply Zdigits2_le; lia).
  assert (Hd1 : Zpos n < 2 ^ d1) by (apply Zdigits2_bound; lia).
  assert (Hd1' : 0 <= d1) by apply Zdigits2_nonneg.
  assert (He' : e' <= 0) by (unfold e'; lia).
  assert (Hm' : 0 <= m' < 2 ^ D).
  { unfold m'. destruct (0 - 0 - e') as [|p|p] eqn:Es; [lia| |lia].
    rewrite Z.shiftl_mul_pow2 by lia.
    assert (Hs : Zpos p <= 53 + d2 - d1).
    { unfold e', fexp, emin, Float.prec, Float.emax in Es. lia. }
    split; [lia|].
    apply Z.lt_le_trans with (2 ^ d1 * 2 ^ Zpos p).
    - apply Z.mul_lt_mono_pos_r; [apply Z.pow_pos_nonneg; lia|exact Hd1].
    - rewrite <- Z.pow_add_r by lia. apply Z.pow_le_mono_r; lia. }
  destruct (Z.div_eucl m' (Zpos k)) as [q r] eqn:Ediv.
  assert (Hq : q = m' / Zpos k) by (unfold Z.div; rewrite Ediv; reflexivity).
  assert (Hq' : 0 <= q < 2 ^ D).
  { subst q. split; [apply Z.div_pos; lia|].
    apply Z.le_lt_trans with m'; [|lia].
    apply Z.div_le_upper_bound; nia. }
  rewrite xorb_false_r.
  replace (2 * D + 1) with (2 * D + 0 + 1) by lia.
  apply binary_round_aux_finite; [exact Hq'|exact He'|lia..].
Qed.

(** The quotient by 3600 of a non-zero integer of either sign. *)
Lemma hours_defined_signed (sign : bool) (n : positive) :
  Zpos n < 2 ^ 64 ->
  exists q r,
    match SFdiv Float.prec Float.emax (S754_finite sign n 0)
            (S754_finite false 3600 0) with
    | S754_infinity _ => None
    | x => Some x
    end = Some q
    /\ Float.round2 q = Some r /\ hours_range r.
Proof.
  intros Hd.
  assert (Hn65 : Zpos n < 2 ^ 65)
    by (apply Z.lt_trans with (2 ^ 64); [exact Hd|reflexivity]).
  pose proof (SFdiv_int_finite sign n 3600 65) as Hq.
  destruct (SFdiv Float.prec Float.emax (S754_finite sign n 0)
              (S754_finite false 3600 0)) as [sq| | |sq mq eq_];
    try (exfalso; apply Hq; [exact Hn65|lia|reflexivity]).
  { eexists _, _. split; [reflexivity|]. split; [reflexivity|exact I]. }
  destruct Hq as (_ & Hmq & Heq); [exact Hn65|lia|reflexivity|].
  exists (S754_finite sq mq eq_).
  cut (exists r, Float.round2 (S754_finite sq mq eq_) = Some r /\ hours_range r).
  { intros [r Hr]. exists r. split; [reflexivity|exact Hr]. }
  unfold Float.round2.
  assert (Hn : 0 <= Float.scaled_round mq eq_ 100 < 2 ^ 204).
  { unfold Float.scaled_round. destruct (Z.leb_spec 0 eq_) as [He|He].
    - split; [apply Z.mul_nonneg_nonneg; [apply Z.mul_nonneg_nonneg|]; lia|].
      assert (2 ^ eq_ <= 2 ^ 131) by (apply Z.pow_le_mono_r; lia).
      assert (0 < 2 ^ eq_) by (apply Z.pow_pos_nonneg; lia).
      change (2 ^ 204) with (2 ^ 65 * 2 ^ 131 * 2 ^ 8).
      change (2 * 65 + 1) with 131 in Heq.
      apply Z.le_lt_trans with (2 ^ 65 * 2 ^ 131 * 100); [|lia].
      apply Z.mul_le_mono_nonneg_r; [lia|].
      apply Z.mul_le_mono_nonneg; lia.
    - unfold Float.round_half_even.
      assert (Hp : 0 < 2 ^ (- eq_)) by (apply Z.pow_pos_nonneg; lia).
      set (den := 2 ^ (- eq_)) in *.
      assert (Hq0 : 0 <= Zpos mq * 100 / den) by (apply Z.div_pos; lia).
      assert (Hq1 : Zpos mq * 100 / den <= Zpos mq * 100)
        by (apply Z.div_le_upper_bound; nia).
      assert (Zpos mq * 100 + 1 < 2 ^ 204).
      { apply Z.le_lt_trans with (2 ^ 65 * 100 + 1); [lia|reflexivity]. }
      destruct (2 * (Zpos mq * 100 mod den) ?= den);
        [destruct (Z.even _)| |]; lia. }
  destruct (Float.scaled_round mq eq_ 100) as [|p|p]; [| |lia].
  { eexists. split; [reflexivity|exact I]. }
  pose proof (SFdiv_int_finite sq p 100 204) as Hr.
  destruct (SFdiv Float.prec Float.emax (S754_finite sq p 0)
              (S754_finite false 100 0));
    try (exfalso; apply Hr; [lia|lia|reflexivity]);
    eexists; (split; [reflexivity|]); [exact I|].
  destruct Hr as (_ & Hm & He); [lia|lia|reflexivity|].
  split; [exact Hm|exact He].
Qed.

(** [diff_seconds / 3600] and its rounding to two places are defined for
    every difference of magnitude below [2 ^ 64]. *)
Lemma hours_defined d :
  - 2 ^ 64 < d < 2 ^ 64 ->
  exists q r, Float.truediv d 3600 = Some q /\ Float.round2 q = Some r
              /\ hours_range r.
Proof.
  intros [Hd0 Hd]. unfold Float.truediv. cbn [Z.eqb].
  destruct d as [|n|n]; cbn [Float.of_Z_exact].
  - eexists _, _. split; [reflexivity|]. split; [reflexivity|exact I].
  - apply hours_defined_signed. exact Hd.
  - apply hours_defined_signed. lia.
Qed.

(** [round(hours * 60)] is defined on that range. *)
Lemma total_minutes_defined hours :
  hours_range hours -> exists t, calculate_total_minutes hours = Some t.
Proof.
  unfold calculate_total_minutes, Float.mul_int.
  replace (Float.of_int 60) with (S754_finite false 8444249301319680 (-47))
    by (vm_compute; reflexivity).
  destruct hours as [s| | |s m e]; cbn [hours_range]; try contradiction.
  - intros _. eexists. reflexivity.
  - intros [Hm He]. cbn [SFmul].
    pose proof (binary_round_aux_finite (xorb s false)
                  (Zpos (m * 8444249301319680)) (e + -47) loc_Exact 257 362) as H.
    destruct (binary_round_aux Float.prec Float.emax (xorb s false)
                (Zpos (m * 8444249301319680)) (e + -47) loc_Exact);
      try (eexists; reflexivity); exfalso; apply H; try lia.
    all: rewrite Pos2Z.inj_mul; split; [lia|];
      change (2 ^ 257) with (2 ^ 204 * 2 ^ 53);
      apply Z.le_lt_trans with (2 ^ 204 * 8444249301319680); [|reflexivity];
      apply Z.mul_le_mono_nonneg_r; lia.
Qed.

(** ** Parsing well-formed time strings *)

Lemma is_digit_not_space c : Py.is_digit c = true -> Py.c_isspace c = false.
Proof. destruct c as [[] [] [] [] [] [] [] []]; vm_compute; congruence. Qed.

Lemma is_digit_not_colon c : Py.is_digit c = true -> Ascii.eqb c ":" = false.
Proof. destruct c as [[] [] [] [] [] [] [] []]; vm_compute; congruence. Qed.

Lemma is_digit_not_sign c :
  Py.is_digit c = true ->
  Ascii.eqb c "-" = false /\ Ascii.eqb c "+" = false /\ Ascii.eqb c "_" = false.
Proof.
  destruct c as [[] [] [] [] [] [] [] []]; vm_compute; intros H;
    repeat split; congruence.
Qed.

Lemma rstrip_digits s :
  all_digits s = true -> Py.rstrip_by Py.c_isspace s = s.
Proof.
  induction s as [|c s IH]; cbn; [reflexivity|].
  intros [Hc Hs]%andb_true_iff. rewrite (IH Hs).
  destruct s; [rewrite (is_digit_not_space c Hc)|]; reflexivity.
Qed.

Lemma strip_digits s :
  all_digits s = true -> Py.strip_by Py.c_isspace s = s.
Proof.
  intros Hs. unfold Py.strip_by.
  destruct s as [|c s]; [reflexivity|].
  pose proof Hs as [Hc _]%andb_true_iff.
  cbn [Py.lstrip_by]. rewrite (is_digit_not_space c Hc).
  apply rstrip_digits, Hs.
Qed.

Lemma count_digits_all s :
  all_digits s = true -> Py.count_digits s = Z.of_nat (String.length s).
Proof.
  induction s as [|c s IH]; cbn [Py.count_digits String.length all_digits];
    [reflexivity|].
  intros [Hc Hs]%andb_true_iff. rewrite Hc, (IH Hs). lia.
Qed.

Lemma int_body_digits s acc prev :
  all_digits s = true -> s <> "" \/ prev = true ->
  Py.int_body s acc prev = Some (decimal acc s).
Proof.
  revert acc prev. induction s as [|c s IH]; intros acc prev Hs Hne; cbn.
  - destruct Hne as [?| ->]; [congruence|reflexivity].
  - apply andb_true_iff in Hs as [Hc Hs]. rewrite Hc.
    apply IH; [exact Hs|right; reflexivity].
Qed.

Lemma int_time_field s v : time_field s v -> Py.int s = Some v.
Proof.
  intros (Hd & Hlen & ->). unfold Py.int. rewrite (strip_digits s Hd).
  destruct s as [|c s]; [cbn in Hlen; lia|].
  pose proof Hd as [Hc _]%andb_true_iff.
  destruct (is_digit_not_sign c Hc) as (-> & -> & _).
  rewrite (count_digits_all _ Hd).
  replace (Py.max_str_digits <? _) with false
    by (symmetry; apply Z.ltb_ge; unfold Py.max_str_digits; lia).
  rewrite int_body_digits by (auto; left; discriminate).
  cbn [mbind option_bind]. f_equal. lia.
Qed.

Lemma split_colon_nonempty s : Py.split_colon s <> [].
Proof.
  destruct s as [|c s]; cbn; [discriminate|].
  destruct (Ascii.eqb c ":"); [discriminate|].
  destruct (Py.split_colon s); discriminate.
Qed.

Lemma split_colon_digits_app a rest :
  all_digits a = true ->
  Py.split_colon (a ++ String ":" rest) = a :: Py.split_colon rest.
Proof.
  induction a as [|c a IH]; intros Ha.
  - reflexivity.
  - apply andb_true_iff in Ha as [Hc Ha]. rewrite append_cons.
    cbn [Py.split_colon]. rewrite (is_digit_not_colon c Hc), (IH Ha). reflexivity.
Qed.

Lemma split_colon_digits a : all_digits a = true -> Py.split_colon a = [a].
Proof.
  induction a as [|c a IH]; intros Ha; [reflexivity|].
  apply andb_true_iff in Ha as [Hc Ha].
  cbn [Py.split_colon]. rewrite (is_digit_not_colon c Hc), (IH Ha). reflexivity.
Qed.

(** A well-formed time string is read as the number of seconds it denotes. *)
Lemma read_parts_time_string s t :
  time_string s t ->
  exists h m sec,
    (2 <= length (Py.split_colon s))%nat
    /\ read_parts (Py.split_colon s) = Some (h, m, sec)
    /\ t = h * 3600 + m * 60 + sec
    /\ 0 <= h /\ 0 <= m /\ 0 <= sec.
Proof.
  assert (Hpos : forall f v, time_field f v -> 0 <= v).
  { intros f v (Hd & _ & ->).
    assert (G : forall s acc, all_digits s = true -> 0 <= acc -> 0 <= decimal acc s).
    { clear. induction s as [|c s IH]; intros acc Hs Hacc; cbn; [exact Hacc|].
      apply andb_true_iff in Hs as [Hc Hs]. apply IH; [exact Hs|].
      assert (0 <= Py.digit_value c); [|lia].
      revert Hc. destruct c as [[] [] [] [] [] [] [] []]; vm_compute; congruence. }
    apply G; [exact Hd|lia]. }
  intros [h m vh vm Hh Hm|h m sec vh vm vs Hh Hm Hs].
  - exists vh, vm, 0.
    pose proof Hh as (Hdh & _). pose proof Hm as (Hdm & _).
    change (h ++ ":" ++ m) with (h ++ String ":" m).
    rewrite (split_colon_digits_app h m Hdh), (split_colon_digits m Hdm).
    split; [cbn; lia|]. split.
    + unfold read_parts. cbn.
      rewrite (int_time_field h vh Hh), (int_time_field m vm Hm). reflexivity.
    + repeat split; eauto; lia.
  - exists vh, vm, vs.
    pose proof Hh as (Hdh & _). pose proof Hm as (Hdm & _).
    pose proof Hs as (Hds & _).
    change (h ++ ":" ++ m ++ ":" ++ sec) with (h ++ String ":" (m ++ String ":" sec)).
    rewrite (split_colon_digits_app h _ Hdh), (split_colon_digits_app m _ Hdm),
      (split_colon_digits sec Hds).
    split; [cbn; lia|]. split.
    + unfold read_parts. cbn.
      rewrite (int_time_field h vh Hh), (int_time_field m vm Hm),
        (int_time_field sec vs Hs). reflexivity.
    + repeat split; eauto.
Qed.

Lemma digit_value_bound c : Py.is_digit c = true -> 0 <= Py.digit_value c <= 9.
Proof.
  destruct c as [[] [] [] [] [] [] [] []]; vm_compute; intros H;
    first [discriminate H | split; discriminate].
Qed.

Lemma time_field_bound s v : time_field s v -> 0 <= v <= 99.
Proof.
  intros (Hd & Hlen & ->).
  destruct s as [|a [|b [|c s]]]; cbn in Hlen; try lia.
  - apply andb_true_iff in Hd as [Ha _].
    pose proof (digit_value_bound a Ha). cbn. lia.
  - apply andb_true_iff in Hd as [Ha [Hb _]%andb_true_iff].
    pose proof (digit_value_bound a Ha). pose proof (digit_value_bound b Hb).
    cbn. lia.
Qed.

Lemma time_string_bound s t : time_string s t -> 0 <= t <= 362439.
Proof.
  intros [h m vh vm Hh Hm|h m sec vh vm vs Hh Hm Hs];
    repeat match goal with
           | H : time_field _ _ |- _ => apply time_field_bound in H
           end; lia.
Qed.

Lemma time_string_usable s t :
  time_string s t -> String.eqb s "-" = false /\ String.eqb s "" = false.
Proof.
  assert (G : forall h rest, time_field h (decimal 0 h) ->
            String.eqb (h ++ rest) "-" = false /\ String.eqb (h ++ rest) "" = false).
  { intros [|c h] rest (Hd & Hlen & _); [cbn in Hlen; lia|].
    apply andb_true_iff in Hd as [Hc _].
    destruct (is_digit_not_sign c Hc) as (Hm & _).
    rewrite append_cons. cbn [String.eqb]. rewrite Hm. auto. }
  intros [h m vh vm Hh Hm|h m sec vh vm vs Hh Hm Hs];
    apply G; destruct Hh as (? & ? & ->); unfold time_field; auto.
Qed.

Lemma below_by_cases (P : Z -> Prop) (n : nat) :
  (forall k, (k < n)%nat -> P (Z.of_nat k)) ->
  forall v, 0 <= v < Z.of_nat n -> P v.
Proof.
  intros H v Hv. rewrite <- (Z2Nat.id v) by lia. apply H. lia.
Qed.

Lemma format_02d_padded v :
  0 <= v < 101 -> zero_padded (Py.format_02d v) v = true.
Proof.
  apply (below_by_cases (fun v => zero_padded (Py.format_02d v) v = true) 101).
  intros k Hk.
  do 101 (destruct k as [|k]; [vm_compute; reflexivity|]). lia.
Qed.

Lemma format_hms_padded d :
  0 <= d <= 362439 ->
  zero_padded_hms d
    (Py.format_02d (d / 3600) ++ ":" ++ Py.format_02d ((d mod 3600) / 60) ++ ":"
       ++ Py.format_02d (d mod 60)).
Proof.
  intros Hd. eexists _, _, _. split; [reflexivity|].
  assert (0 <= d / 3600 < 101)
    by (split; [apply Z.div_pos; lia|apply Z.div_lt_upper_bound; lia]).
  pose proof (Z.mod_pos_bound d 3600 ltac:(lia)).
  assert (0 <= (d mod 3600) / 60 < 101)
    by (split; [apply Z.div_pos; lia|apply Z.div_lt_upper_bound; lia]).
  pose proof (Z.mod_pos_bound d 60 ltac:(lia)).
  repeat split; apply format_02d_padded; lia.
Qed.

Lemma finish_hours_defined t_in t_out q r :
  Float.truediv (t_out - t_in) 3600 = Some q -> Float.round2 q = Some r ->
  default zero_hours (finish_hours t_in t_out)
  = (r, Py.format_02d ((t_out - t_in) / 3600) ++ ":"
          ++ Py.format_02d (((t_out - t_in) mod 3600) / 60) ++ ":"
          ++ Py.format_02d ((t_out - t_in) mod 60)).
Proof.
  intros Hq Hr. unfold finish_hours. rewrite Hq. cbn [mbind option_bind].
  rewrite Hr. reflexivity.
Qed.

(** What [calculate_hours] does on two well-formed time strings. *)
Lemma calculate_hours_time_strings ci co ti to :
  time_string ci ti -> time_string co to ->
  calculate_hours (Str ci) (Str co)
  = default zero_hours (finish_hours ti to).
Proof.
  intros Hi Ho. unfold calculate_hours.
  destruct (time_string_usable _ _ Hi) as [-> ->].
  destruct (time_string_usable _ _ Ho) as [-> ->]. cbn [orb].
  destruct (read_parts_time_string _ _ Hi) as (ih & im & isec & Hli & Hri & -> & _).
  destruct (read_parts_time_string _ _ Ho) as (oh & om & osec & Hlo & Hro & -> & _).
  rewrite calculate_hours_try_unfold by assumption.
  rewrite Hri, Hro. reflexivity.
Qed.

(** The formatted component on well-formed strings in order. *)
Lemma calculate_hours_time_strings_padded ci co ti to :
  time_string ci ti -> time_string co to -> ti <= to ->
  exists r fmt, calculate_hours (Str ci) (Str co) = (r, fmt)
                /\ zero_padded_hms (to - ti) fmt.
Proof.
  intros Hi Ho Hle.
  pose proof (time_string_bound _ _ Hi) as Bi.
  pose proof (time_string_bound _ _ Ho) as Bo.
  destruct (hours_defined (to - ti)) as (q & r & Hq & Hr & _).
  { split; [apply Z.lt_le_trans with 0; [reflexivity|lia]|].
    apply Z.le_lt_trans with 362439; [lia|reflexivity]. }
  exists r. eexists.
  rewrite (calculate_hours_time_strings _ _ _ _ Hi Ho).
  unfold finish_hours. rewrite Hq. cbn [mbind option_bind]. rewrite Hr.
  cbn [mbind option_bind default]. split; [reflexivity|].
  apply format_hms_padded. lia.
Qed.

(** C1: on well-formed time strings [H:M] or [H:M:S], the check-out not
    earlier than the check-in, [calculate_hours] returns
    [round(diff_seconds / 3600, 2)], which is defined, and the difference
    written as zero-padded [HH:MM:SS]; ["09:00"] to ["18:00"] gives
    [(9.0, "09:00:00")]. *)
Theorem calculate_hours_well_formed :
  (forall (check_in check_out : string) (t_in t_out : Z),
     time_string check_in t_in -> time_string check_out t_out ->
     t_in <= t_out ->
     exists (q r : spec_float) (fmt : string),
       Float.truediv (t_out - t_in) 3600 = Some q
       /\ Float.round2 q = Some r
       /\ calculate_hours (Str check_in) (Str check_out) = (r, fmt)
       /\ zero_padded_hms (t_out - t_in) fmt)
  /\ calculate_hours (Str "09:00") (Str "18:00") = (Float.of_int 9, "09:00:00").
Proof.
  split; [|vm_compute; reflexivity].
  intros ci co ti to Hi Ho Hle.
  pose proof (time_string_bound _ _ Hi) as Bi.
  pose proof (time_string_bound _ _ Ho) as Bo.
  destruct (hours_defined (to - ti)) as (q & r & Hq & Hr & _).
  { split; [apply Z.lt_le_trans with 0; [reflexivity|lia]|].
    apply Z.le_lt_trans with 362439; [lia|reflexivity]. }
  exists q, r. eexists. split; [exact Hq|]. split; [exact Hr|].
  rewrite (calculate_hours_time_strings _ _ _ _ Hi Ho).
  unfold finish_hours. rewrite Hq. cbn [mbind option_bind]. rewrite Hr.
  cbn [mbind option_bind default]. split; [reflexivity|].
  apply format_hms_padded. lia.
Qed.

Lemma calculate_hours_well_formed_witness :
  exists (q r : spec_float) (fmt : string),
    Float.truediv (64830 - 32400) 3600 = Some q
    /\ Float.round2 q = Some r
    /\ calculate_hours (Str "9:00") (Str "18:00:30") = (r, fmt)
    /\ zero_padded_hms (64830 - 32400) fmt.
Proof.
  apply (proj1 calculate_hours_well_formed "9:00" "18:00:30" 32400 64830).
  - apply (time_HM "9" "00" 9 0); repeat split; cbn; lia.
  - apply (time_HMS "18" "00" "30" 18 0 30); repeat split; cbn; lia.
  - lia.
Defined.

(** ** Negative spans *)

Lemma zero_padded_field f v :
  zero_padded f v = true -> all_digits f = true /\ f <> "" /\ decimal 0 f = v.
Proof.
  unfold zero_padded.
  intros [[[Hd Hl]%andb_true_iff Hv]%andb_true_iff _]%andb_true_iff.
  split; [exact Hd|]. split; [|apply Z.eqb_eq, Hv].
  intros ->. discriminate.
Qed.

Lemma zero_padded_hms_nonneg d str :
  0 <= d -> zero_padded_hms d str -> nonneg_duration str.
Proof.
  intros Hd (h & m & s & -> & Hh & Hm & Hs).
  apply zero_padded_field in Hh as (? & ? & _).
  apply zero_padded_field in Hm as (? & ? & Em).
  apply zero_padded_field in Hs as (? & ? & Es).
  exists h, m, s. rewrite Em, Es.
  pose proof (Z.mod_pos_bound d 3600 ltac:(lia)).
  pose proof (Z.mod_pos_bound d 60 ltac:(lia)).
  repeat split; try assumption.
  - apply Z.div_pos; lia.
  - apply Z.div_lt_upper_bound; lia.
  - lia.
  - lia.
Qed.

Lemma format_02d_negative v :
  v < 0 -> exists rest, Py.format_02d v = String "-" rest.
Proof.
  intros Hv. unfold Py.format_02d.
  replace (v <? 0) with true by (symmetry; apply Z.ltb_lt; exact Hv).
  destruct v as [|p|p]; [lia|lia|]. eexists. reflexivity.
Qed.

(** C3 as stated fails: from ["18:00"] to ["09:00"] the
    program parses both strings and formats ["-9:00:00"]. *)
Lemma negative_span_not_a_duration :
  time_string "18:00" 64800 /\ time_string "09:00" 32400
  /\ calculate_hours (Str "18:00") (Str "09:00") = (Float.of_int (-9), "-9:00:00")
  /\ ~ nonneg_duration (calculate_hours (Str "18:00") (Str "09:00")).2.
Proof.
  split; [apply (time_HM "18" "00" 18 0); repeat split; cbn; lia|].
  split; [apply (time_HM "09" "00" 9 0); repeat split; cbn; lia|].
  split; [vm_compute; reflexivity|].
  replace (calculate_hours (Str "18:00") (Str "09:00")).2 with "-9:00:00"
    by (vm_compute; reflexivity).
  intros (h & m & s & E & Hh & _ & _ & Hne & _).
  destruct h as [|c h]; [congruence|].
  rewrite append_cons in E. injection E as <- _.
  discriminate Hh.
Qed.

(** C3, amended: on well-formed time strings the formatted component is a
    non-negative duration [H:M:S] when the check-out is not earlier than
    the check-in; when it is earlier, the hours field carries a minus
    sign. *)
Theorem calculate_hours_duration_sign
    (check_in check_out : string) (t_in t_out : Z) :
  time_string check_in t_in -> time_string check_out t_out ->
  (t_in <= t_out ->
   nonneg_duration (calculate_hours (Str check_in) (Str check_out)).2)
  /\ (t_out < t_in ->
      exists rest,
        (calculate_hours (Str check_in) (Str check_out)).2 = String "-" rest).
Proof.
  intros Hi Ho.
  pose proof (time_string_bound _ _ Hi) as Bi.
  pose proof (time_string_bound _ _ Ho) as Bo.
  split.
  - intros Hle.
    destruct (calculate_hours_time_strings_padded _ _ _ _ Hi Ho Hle)
      as (r & fmt & -> & Hp).
    apply (zero_padded_hms_nonneg (t_out - t_in)); [lia|exact Hp].
  - intros Hlt.
    destruct (hours_defined (t_out - t_in)) as (q & r & Hq & Hr & _).
    { split; [apply Z.lt_le_trans with (- 362439); [reflexivity|lia]|].
      apply Z.le_lt_trans with 362439; [lia|reflexivity]. }
    rewrite (calculate_hours_time_strings _ _ _ _ Hi Ho).
    unfold finish_hours. rewrite Hq. cbn [mbind option_bind]. rewrite Hr.
    cbn [mbind option_bind default snd].
    destruct (format_02d_negative ((t_out - t_in) / 3600)) as [rest ->].
    { apply Z.div_lt_upper_bound; lia. }
    eexists. reflexivity.
Qed.

Lemma calculate_hours_duration_sign_witness :
  nonneg_duration (calculate_hours (Str "09:00") (Str "18:00:30")).2
  /\ exists rest,
       (calculate_hours (Str "18:00:30") (Str "09:00")).2 = String "-" rest.
Proof.
  assert (H1 : time_string "09:00" 32400)
    by (apply (time_HM "09" "00" 9 0); repeat split; cbn; lia).
  assert (H2 : time_string "18:00:30" 64830)
    by (apply (time_HMS "18" "00" "30" 18 0 30); repeat split; cbn; lia).
  split.
  - apply (calculate_hours_duration_sign "09:00" "18:00:30" 32400 64830 H1 H2). lia.
  - apply (calculate_hours_duration_sign "18:00:30" "09:00" 64830 32400 H2 H1). lia.
Defined.

(** ** Overtime comes from the rounded hours *)

(** C9: for a matched record with well-formed times in order, EXTRA MINUTES
    is computed from [round(round(diff_seconds / 3600, 2) * 60)], the float
    hours rounded to two places, and not from the exact difference.  From
    ["09:00:00"] to ["18:00:30"] the report shows one extra minute, although
    the difference exceeds the 540 minutes by 30 seconds only. *)
Theorem extra_minutes_from_rounded_hours :
  (forall (lib : date_library) (mapping : gmap string employee_details)
          (row : report_row) (details : employee_details)
          (check_in check_out : string) (t_in t_out : Z),
     mapping !! Py.strip (astype_str (person_id row)) = Some details ->
     check_in_col row = Some (Str check_in) ->
     check_out_col row = Some (Str check_out) ->
     time_string check_in t_in -> time_string check_out t_out ->
     t_in <= t_out ->
     exists (q hours : spec_float) (total_minutes : Z) (o : output_row),
       Float.truediv (t_out - t_in) 3600 = Some q
       /\ Float.round2 q = Some hours
       /\ Float.round_int (Float.mul_int hours 60) = Some total_minutes
       /\ process_row lib mapping row = Emitted o
       /\ EXTRA_MINUTES o
          = Py.str_of_int (calculate_extra_minutes total_minutes 540))
  /\ (forall lib : date_library,
        exists o,
          process_row lib employee_mapping
            {| person_id := Str "S003"; date := Str "2024-01-01";
               check_in_col := Some (Str "09:00:00");
               check_out_col := Some (Str "18:00:30");
               attendance_status_col := Some (Str "normal") |} = Emitted o
          /\ TOTAL_HOURS o = "09:00:30"
          /\ EXTRA_MINUTES o = "1"
          /\ (18 * 3600 + 30) - 9 * 3600 - 540 * 60 = 30).
Proof.
  split.
  - intros lib mapping row details ci co ti to Hhit Hci Hco Hi Ho Hle.
    pose proof (time_string_bound _ _ Hi) as Bi.
    pose proof (time_string_bound _ _ Ho) as Bo.
    destruct (hours_defined (to - ti)) as (q & hours & Hq & Hr & Hrange).
    { split; [apply Z.lt_le_trans with 0; [reflexivity|lia]|].
      apply Z.le_lt_trans with 362439; [lia|reflexivity]. }
    destruct (total_minutes_defined hours Hrange) as [total Ht].
    exists q, hours, total. eexists.
    split; [exact Hq|]. split; [exact Hr|]. split; [exact Ht|].
    unfold process_row. rewrite Hhit, Hci, Hco.
    change (row_get (Some (Str ci)) "-") with (Str ci).
    change (row_get (Some (Str co)) "-") with (Str co).
    rewrite (calculate_hours_time_strings _ _ _ _ Hi Ho).
    rewrite (finish_hours_defined _ _ _ _ Hq Hr), Ht.
    split; reflexivity.
  - intros lib. eexists. split; [vm_compute; reflexivity|].
    repeat split.
Qed.

Lemma extra_minutes_from_rounded_hours_witness :
  exists (q hours : spec_float) (total_minutes : Z) (o : output_row),
    Float.truediv (64830 - 32400) 3600 = Some q
    /\ Float.round2 q = Some hours
    /\ Float.round_int (Float.mul_int hours 60) = Some total_minutes
    /\ process_row sample_library employee_mapping
         {| person_id := Str "S003"; date := Str "2024-01-01";
            check_in_col := Some (Str "09:00:00");
            check_out_col := Some (Str "18:00:30");
            attendance_status_col := None |} = Emitted o
    /\ EXTRA_MINUTES o = Py.str_of_int (calculate_extra_minutes total_minutes 540).
Proof.
  apply (proj1 extra_minutes_from_rounded_hours sample_library employee_mapping _
           {| employee_id := Str "TTQA003"; employee_name := Str "Abdul Shifas";
              department := Str "Pre-Sales" |} "09:00:00" "18:00:30").
  - vm_compute. reflexivity.
  - reflexivity.
  - reflexivity.
  - apply (time_HMS "09" "00" "00" 9 0 0); repeat split; cbn; lia.
  - apply (time_HMS "18" "00" "30" 18 0 30); repeat split; cbn; lia.
  - lia.
Defined.

(** * Further properties *)

(** ** The join *)

Section Join.
Variable lib : date_library.
Variable mapping : gmap string employee_details.

Lemma process_row_matched row :
  matched mapping row = false <-> process_row lib mapping row = Skipped.
Proof.
  unfold matched, process_row.
  destruct (mapping !! _); [|tauto].
  destruct (calculate_hours _ _) as [h f].
  destruct (calculate_total_minutes h); split; discriminate.
Qed.

Lemma process_row_joined row o :
  process_row lib mapping row = Emitted o -> joined mapping row o.
Proof.
  unfold process_row, joined.
  destruct (mapping !! _) as [details|]; [|discriminate].
  destruct (calculate_hours _ _) as [h f] eqn:E.
  destruct (calculate_total_minutes h); [|discriminate].
  intros [= <-]. exists details. cbn. repeat split.
Qed.

Lemma build_output_forall2 (rows : list report_row) (out : list output_row) :
  build_output lib mapping rows = Some out ->
  Forall2 (joined mapping) (List.filter (matched mapping) rows) out.
Proof.
  revert out. induction rows as [|row rows IH]; intros out; cbn.
  - intros [= <-]. constructor.
  - destruct (process_row lib mapping row) as [|o|] eqn:E.
    + apply process_row_matched in E. rewrite E. apply IH.
    + assert (Hm : matched mapping row = true).
      { destruct (matched mapping row) eqn:M; [reflexivity|].
        apply process_row_matched in M. congruence. }
      rewrite Hm.
      destruct (build_output lib mapping rows) as [out'|]; [|discriminate].
      intros [= <-]. constructor; [|apply IH; reflexivity].
      apply process_row_joined, E.
    + discriminate.
Qed.

(** X2: when the loop completes, the emitted rows are, in input order, the
    rows whose trimmed identifier is a key of the mapping, each with the
    employee number, name and department that key maps to, and with the
    date, the attendance status and the formatted hours of its own row. *)
Theorem build_output_joins (rows : list report_row) (out : list output_row) :
  build_output lib mapping rows = Some out ->
  Forall2 (joined mapping) (List.filter (matched mapping) rows) out.
Proof. exact (build_output_forall2 rows out). Qed.

Lemma build_output_length rows out :
  build_output lib mapping rows = Some out ->
  (length out + length (List.filter (fun r => negb (matched mapping r)) rows)
   = length rows)%nat.
Proof.
  intros H. apply build_output_forall2 in H. apply Forall2_length in H.
  rewrite <- H. clear H out.
  induction rows as [|r rows IH]; cbn; [reflexivity|].
  destruct (matched mapping r); cbn; lia.
Qed.

End Join.

Lemma build_output_joins_witness :
  let row pid := {| person_id := Str pid; date := Str "2024-01-02";
                    check_in_col := Some (Str "09:00");
                    check_out_col := Some (Str "18:00");
                    attendance_status_col := Some (Str "normal") |} in
  exists out,
    build_output sample_library employee_mapping [row "X999"; row " S003 "]
      = Some out
    /\ Forall2 (joined employee_mapping)
         (List.filter (matched employee_mapping) [row "X999"; row " S003 "]) out.
Proof.
  intros row.
  destruct (build_output sample_library employee_mapping [row "X999"; row " S003 "])
    as [out|] eqn:E; [|vm_compute in E; discriminate].
  exists out. split; [reflexivity|].
  exact (build_output_joins sample_library employee_mapping _ out E).
Defined.

(** ** The statistics *)

Lemma remove_dups_length {A} `{EqDecision A} (l : list A) :
  (length (remove_dups l) <= length l)%nat.
Proof.
  induction l as [|x l IH]; cbn; [lia|].
  destruct (decide_rel elem_of x l); cbn; lia.
Qed.

Lemma filter_length_le {A} (f : A -> bool) (l : list A) :
  (length (List.filter f l) <= length l)%nat.
Proof.
  induction l as [|x l IH]; cbn; [lia|]. destruct (f x); cbn; lia.
Qed.

Lemma attach_dates_length rows dates :
  length (attach_dates rows dates) = length rows.
Proof.
  revert dates. induction rows as [|x l IH]; intros ds; cbn; [reflexivity|].
  rewrite IH. reflexivity.
Qed.

Lemma sort_report_length lib out sorted :
  sort_report lib out = Some sorted ->
  out <> [] /\ length sorted = length out.
Proof.
  unfold sort_report. destruct out as [|o out]; [discriminate|].
  intros H. split; [discriminate|].
  assert (E : sorted = sort_values
                (attach_dates (o :: out) (to_datetime lib (map DATE (o :: out)))))
    by congruence.
  rewrite E, (Permutation_length (sort_values_perm _)). apply attach_dates_length.
Qed.

(** X1: whenever the statistics are shown, Total Records is Matched Records
    plus the number of cleaned rows whose identifier misses the directory;
    Employees Covered is at least one and at most Matched Records, and
    Total Records is at most the number of uploaded rows. *)
Theorem report_statistics_add_up
    (lib : date_library) (report_df : uploaded_frame) (total hit covered : nat) :
  report_statistics lib report_df = Some (total, hit, covered) ->
  (total
   = hit + length (List.filter (fun r => negb (matched employee_mapping r))
                     (clean_rows (frame_rows report_df))))%nat
  /\ (1 <= covered <= hit)%nat
  /\ (hit <= total <= length (frame_rows report_df))%nat.
Proof.
  unfold report_statistics, clean_report_data.
  destruct (person_id_is_str report_df && date_is_str report_df); [|discriminate].
  cbn [mbind option_bind].
  destruct (build_output lib employee_mapping (clean_rows (frame_rows report_df)))
    as [out|] eqn:Eo; [|discriminate].
  cbn [mbind option_bind].
  destruct (sort_report lib out) as [sorted|] eqn:Es; [|discriminate].
  cbn [mbind option_bind].
  pose proof (build_output_length lib employee_mapping _ _ Eo) as Hlen.
  destruct (sort_report_length _ _ _ Es) as [Hne Hsorted].
  set (emps := map (fun r : dated_row => NEW_EMPLOYEE_NO r.1) sorted).
  assert (Hle : (length (remove_dups emps) <= length out)%nat).
  { etransitivity; [apply remove_dups_length|].
    unfold emps. rewrite length_map, Hsorted. reflexivity. }
  assert (Hpos : (1 <= length (remove_dups emps))%nat).
  { destruct sorted as [|x l]; [destruct out; [congruence|discriminate]|].
    assert (Hin : NEW_EMPLOYEE_NO x.1 ∈ remove_dups emps)
      by (apply elem_of_remove_dups; left).
    destruct (remove_dups emps); [inversion Hin|cbn; lia]. }
  assert (Hclean : (length (clean_rows (frame_rows report_df))
                    <= length (frame_rows report_df))%nat).
  { unfold clean_rows. rewrite length_map. apply filter_length_le. }
  intros [= <- <- <-]. lia.
Qed.

Lemma report_statistics_add_up_witness :
  let row pid := {| person_id := Str pid; date := Str "2024-01-02";
                    check_in_col := Some (Str "09:00");
                    check_out_col := Some (Str "18:00");
                    attendance_status_col := Some (Str "normal") |} in
  let report_df := text_frame [row "X999"; row "S003"; row "  "; row "S003"] in
  report_statistics sample_library report_df = Some (3, 2, 1)%nat
  /\ (3 = 2 + length (List.filter (fun r => negb (matched employee_mapping r))
                        (clean_rows (frame_rows report_df))))%nat.
Proof.
  intros row report_df.
  assert (E : report_statistics sample_library report_df = Some (3, 2, 1)%nat)
    by (vm_compute; reflexivity).
  split; [exact E|].
  exact (proj1 (report_statistics_add_up sample_library report_df 3 2 1 E)).
Defined.

(** ** The directory mapping *)

Lemma add_employee_key m row :
  add_employee m row
  = match entry_key row with
    | Some k => <[k := entry_details row]> m
    | None => m
    end.
Proof.
  unfold add_employee, entry_key, entry_details.
  destruct (db_person_id row) as [|s]; [reflexivity|].
  cbn [notna astype_str andb].
  destruct (String.eqb (Py.strip s) ""); reflexivity.
Qed.

Lemma build_mapping_snoc db row :
  build_mapping (db ++ [row])%list = add_employee (build_mapping db) row.
Proof. unfold build_mapping. rewrite foldl_app. reflexivity. Qed.

Lemma build_mapping_lookup (db_df : list directory_entry) (k : string) :
  build_mapping db_df !! k
  = entry_details <$> last (List.filter (stored_under k) db_df).
Proof.
  induction db_df as [|row db IH] using rev_ind; [reflexivity|].
  rewrite build_mapping_snoc, add_employee_key, List.filter_app.
  cbn [List.filter]. unfold stored_under at 2.
  destruct (entry_key row) as [k'|].
  - destruct (String.eqb_spec k' k) as [->|Hne].
    + rewrite lookup_insert_eq, last_snoc. reflexivity.
    + rewrite lookup_insert_ne by exact Hne. rewrite app_nil_r. exact IH.
  - rewrite app_nil_r. exact IH.
Qed.

(** X3: in the mapping built from any directory, an identifier maps to the
    details of the last row stored under it: a later row with the same
    trimmed identifier silently replaces an earlier one, and an identifier
    no row is stored under is absent. *)
Theorem build_mapping_last_wins (db_df : list directory_entry) (k : string) :
  build_mapping db_df !! k
  = entry_details <$> last (List.filter (stored_under k) db_df).
Proof. exact (build_mapping_lookup db_df k). Qed.

Section StripIdempotent.
Variable space : ascii -> bool.

Lemma rstrip_by_idem s :
  Py.rstrip_by space (Py.rstrip_by space s) = Py.rstrip_by space s.
Proof.
  induction s as [|c s IH]; [reflexivity|]. cbn [Py.rstrip_by].
  destruct (Py.rstrip_by space s) as [|d r] eqn:E.
  - destruct (space c) eqn:Hc; [reflexivity|]. cbn. rewrite Hc. reflexivity.
  - cbn [Py.rstrip_by] in *. rewrite IH. reflexivity.
Qed.

Lemma rstrip_by_head c r :
  space c = false ->
  exists r', Py.rstrip_by space (String c r) = String c r'.
Proof.
  intros Hc. cbn. destruct (Py.rstrip_by space r); [rewrite Hc|]; eauto.
Qed.

Lemma strip_by_idem s :
  Py.strip_by space (Py.strip_by space s) = Py.strip_by space s.
Proof.
  unfold Py.strip_by.
  destruct (lstrip_by_cases space s) as [->|(c & r & -> & Hc)]; [reflexivity|].
  destruct (rstrip_by_head c r Hc) as [r' E].
  rewrite E at 1. cbn [Py.lstrip_by]. rewrite Hc, <- E.
  apply rstrip_by_idem.
Qed.
End StripIdempotent.

(** X4: every key of the mapping built from any directory is non-empty and
    trimmed, so that the exact lookup of a trimmed report identifier finds a
    directory row whatever white space surrounds either identifier. *)
Theorem build_mapping_keys_trimmed
    (db_df : list directory_entry) (k : string) (d : employee_details) :
  build_mapping db_df !! k = Some d ->
  k <> "" /\ Py.strip k = k
  /\ exists row, row ∈ db_df /\ entry_details row = d
                 /\ exists s, db_person_id row = Str s /\ Py.strip s = k.
Proof.
  rewrite build_mapping_lookup.
  destruct (last (List.filter (stored_under k) db_df)) as [row|] eqn:E;
    [|discriminate].
  intros [= <-].
  apply last_Some_elem_of, list_elem_of_In, filter_In in E as [Hin Hk].
  unfold stored_under, entry_key in Hk.
  destruct (db_person_id row) as [|s] eqn:Es; [discriminate|].
  destruct (String.eqb_spec (Py.strip s) "") as [|Hne]; [discriminate|].
  apply String.eqb_eq in Hk. subst k.
  split; [exact Hne|]. split; [apply strip_by_idem|].
  exists row. split; [apply list_elem_of_In, Hin|]. split; [reflexivity|].
  exists s. auto.
Qed.

Lemma build_mapping_keys_trimmed_witness :
  "S003" <> "" /\ Py.strip "S003" = "S003"
  /\ exists row, row ∈ get_employee_database
       /\ entry_details row
          = {| employee_id := Str "TTQA003"; employee_name := Str "Abdul Shifas";
               department := Str "Pre-Sales" |}
       /\ exists s, db_person_id row = Str s /\ Py.strip s = "S003".
Proof.
  apply (build_mapping_keys_trimmed get_employee_database "S003").
  vm_compute. reflexivity.
Defined.

(** ** Completion of the loop *)

Lemma calculate_hours_range check_in check_out :
  plain_time check_in -> plain_time check_out ->
  hours_range (calculate_hours check_in check_out).1.
Proof.
  intros [Hi|(ci & ti & -> & Hi)] Ho;
    [rewrite calculate_hours_unusable by (left; exact Hi); exact I|].
  destruct Ho as [Ho|(co & to & -> & Ho)];
    [rewrite calculate_hours_unusable by (right; exact Ho); exact I|].
  pose proof (time_string_bound _ _ Hi) as Bi.
  pose proof (time_string_bound _ _ Ho) as Bo.
  destruct (hours_defined (to - ti)) as (q & r & Hq & Hr & Hrange).
  { split; [apply Z.lt_le_trans with (- 362439); [reflexivity|lia]|].
    apply Z.le_lt_trans with 362439; [lia|reflexivity]. }
  rewrite (calculate_hours_time_strings _ _ _ _ Hi Ho).
  rewrite (finish_hours_defined _ _ _ _ Hq Hr). exact Hrange.
Qed.

Lemma process_row_not_raised lib mapping row :
  plain_time (row_get (check_in_col row) "-") ->
  plain_time (row_get (check_out_col row) "-") ->
  process_row lib mapping row <> Raised.
Proof.
  intros Hi Ho. unfold process_row.
  destruct (mapping !! _); [|discriminate].
  pose proof (calculate_hours_range _ _ Hi Ho) as Hr.
  destruct (calculate_hours _ _) as [h f]. cbn [fst] in Hr.
  destruct (total_minutes_defined h Hr) as [t ->]. discriminate.
Qed.

(** X5: the loop raises nothing, and so yields its list of rows, whenever
    every time cell it reads is either unusable (missing, empty, the
    sentinel, malformed) or a well-formed time string, in whichever order
    check-in and check-out come. *)
Theorem build_output_completes
    (lib : date_library) (mapping : gmap string employee_details)
    (rows : list report_row) :
  (forall row, row ∈ rows ->
     plain_time (row_get (check_in_col row) "-")
     /\ plain_time (row_get (check_out_col row) "-")) ->
  exists out, build_output lib mapping rows = Some out.
Proof.
  induction rows as [|row rows IH]; intros H; cbn; [eauto|].
  destruct (H row) as [Hi Ho]; [left|].
  pose proof (process_row_not_raised lib mapping row Hi Ho) as Hnr.
  destruct IH as [out Hout]; [intros r Hr; apply H; right; exact Hr|].
  rewrite Hout.
  destruct (process_row lib mapping row); [eauto|eauto|congruence].
Qed.

Lemma build_output_completes_witness :
  let row ci co := {| person_id := Str "S003"; date := Str "2024-01-02";
                      check_in_col := ci; check_out_col := co;
                      attendance_status_col := None |} in
  exists out,
    build_output sample_library employee_mapping
      [row (Some (Str "18:00")) (Some (Str "9:30:15")); row None (Some NaN);
       row (Some (Str "9h")) (Some (Str "18:00"))] = Some out.
Proof.
  intros row. apply build_output_completes.
  assert (H1 : time_string "18:00" 64800)
    by (apply (time_HM "18" "00" 18 0); repeat split; cbn; lia).
  assert (H2 : time_string "9:30:15" 34215)
    by (apply (time_HMS "9" "30" "15" 9 30 15); repeat split; cbn; lia).
  intros r Hr. repeat (apply elem_of_cons in Hr as [->|Hr]); cbn.
  - split; right; eauto.
  - split; left; cbn; auto.
  - split; [left|right; eauto]. cbn. right. right. left. vm_compute. lia.
  - inversion Hr.
Defined.

(** ** A report needs a match *)

Lemma build_output_no_match lib mapping rows :
  (forall row, row ∈ rows -> matched mapping row = false) ->
  build_output lib mapping rows = Some [].
Proof.
  induction rows as [|row rows IH]; intros H; cbn; [reflexivity|].
  assert (Hs : process_row lib mapping row = Skipped)
    by (apply process_row_matched, H; left).
  rewrite Hs. apply IH. intros r Hr. apply H. right. exact Hr.
Qed.

(** X6: the transform yields no empty report.  When no cleaned row matches
    the directory, in particular on an empty upload, it ends in the error
    of the enclosing [try] (the frame built from no rows has no [DATE]
    column); and a report that is produced has one row for each cleaned row
    that matches, hence at least one. *)
Theorem generate_report_needs_a_match
    (lib : date_library) (report_df : uploaded_frame) :
  ((forall row, row ∈ clean_rows (frame_rows report_df) ->
      matched employee_mapping row = false) ->
   generate_report lib report_df = None)
  /\ (forall report, generate_report lib report_df = Some report ->
        (0 < length report)%nat
        /\ length report
           = length (List.filter (matched employee_mapping)
                       (clean_rows (frame_rows report_df)))).
Proof.
  split.
  - intros H. unfold generate_report, clean_report_data.
    destruct (person_id_is_str report_df && date_is_str report_df);
      [|reflexivity].
    cbn [mbind option_bind]. rewrite (build_output_no_match _ _ _ H). reflexivity.
  - intros report Hgen.
    destruct (generate_report_unfold _ _ _ Hgen)
      as (_ & _ & out & sorted & Eo & Es & E).
    destruct (sort_report_length _ _ _ Es) as [Hne Hlen].
    pose proof (Forall2_length _ _ _ (build_output_forall2 _ _ _ _ Eo)) as Hj.
    rewrite E, length_map, Hlen. split; [|lia].
    destruct out; [congruence|cbn; lia].
Qed.

Lemma generate_report_needs_a_match_witness :
  generate_report sample_library (text_frame []) = None
  /\ generate_report sample_library
       (text_frame
          [{| person_id := Str "X999"; date := Str "2024-01-02";
              check_in_col := None; check_out_col := None;
              attendance_status_col := None |}]) = None.
Proof.
  split; apply (proj1 (generate_report_needs_a_match sample_library _)).
  - intros row Hr. inversion Hr.
  - intros row Hr. cbn in Hr. apply list_elem_of_singleton in Hr as ->.
    vm_compute. reflexivity.
Defined.

(** ** Parts beyond the third *)

Lemma string_append_assoc (a b c : string) : (a ++ b) ++ c = a ++ (b ++ c).
Proof.
  induction a as [|x a IH]; [reflexivity|].
  rewrite !append_cons, IH. reflexivity.
Qed.

Lemma digits_head_usable h rest :
  all_digits h = true -> h <> "" ->
  String.eqb (h ++ rest) "-" = false /\ String.eqb (h ++ rest) "" = false.
Proof.
  intros Hd Hne. destruct h as [|c h]; [congruence|].
  apply andb_true_iff in Hd as [Hc _].
  destruct (is_digit_not_sign c Hc) as (Hm & _).
  rewrite append_cons. cbn [String.eqb]. rewrite Hm. auto.
Qed.

(** X8: what follows a third colon is never read.  A time with three fields
    of digits gives the same result whatever is appended after a further
    colon, on the check-in side as on the check-out side, and whatever the
    other argument is. *)
Theorem calculate_hours_ignores_further_parts
    (h m s junk : string) (other : cell) :
  all_digits h = true -> all_digits m = true -> all_digits s = true ->
  h <> "" ->
  let three := h ++ ":" ++ m ++ ":" ++ s in
  calculate_hours (Str (three ++ ":" ++ junk)) other
  = calculate_hours (Str three) other
  /\ calculate_hours other (Str (three ++ ":" ++ junk))
     = calculate_hours other (Str three).
Proof.
  intros Hh Hm Hs Hne three.
  assert (Esplit : Py.split_colon three = [h; m; s]).
  { unfold three. change (h ++ ":" ++ m ++ ":" ++ s)
      with (h ++ String ":" (m ++ String ":" s)).
    rewrite (split_colon_digits_app h _ Hh), (split_colon_digits_app m _ Hm),
      (split_colon_digits s Hs). reflexivity. }
  assert (Esplit' : Py.split_colon (three ++ ":" ++ junk)
                    = h :: m :: s :: Py.split_colon junk).
  { unfold three.
    replace ((h ++ ":" ++ m ++ ":" ++ s) ++ ":" ++ junk)
      with (h ++ String ":" (m ++ String ":" (s ++ String ":" junk))).
    - rewrite (split_colon_digits_app h _ Hh), (split_colon_digits_app m _ Hm),
        (split_colon_digits_app s _ Hs). reflexivity.
    - repeat (rewrite string_append_assoc || rewrite append_cons). reflexivity. }
  assert (Eu : String.eqb three "-" = false /\ String.eqb three "" = false)
    by (apply digits_head_usable; assumption).
  assert (Eu' : String.eqb (three ++ ":" ++ junk) "-" = false
                /\ String.eqb (three ++ ":" ++ junk) "" = false).
  { unfold three. rewrite string_append_assoc.
    apply digits_head_usable; assumption. }
  destruct Eu as [Eu1 Eu2], Eu' as [Eu1' Eu2'].
  destruct other as [|o]; [split; reflexivity|].
  unfold calculate_hours. rewrite Eu1, Eu2, Eu1', Eu2'.
  destruct (String.eqb o "-"); [split; reflexivity|].
  destruct (String.eqb o ""); [split; reflexivity|]. cbn [orb].
  split; f_equal.
  - destruct (Nat.lt_ge_cases (length (Py.split_colon o)) 2) as [Ho|Ho].
    + rewrite !calculate_hours_try_short_out by exact Ho. reflexivity.
    + rewrite !calculate_hours_try_unfold; try assumption;
        rewrite ?Esplit, ?Esplit'; cbn; try lia. reflexivity.
  - destruct (Nat.lt_ge_cases (length (Py.split_colon o)) 2) as [Ho|Ho].
    + rewrite !calculate_hours_try_short_in by exact Ho. reflexivity.
    + rewrite !calculate_hours_try_unfold; try assumption;
        rewrite ?Esplit, ?Esplit'; cbn; try lia. reflexivity.
Qed.

Lemma calculate_hours_ignores_further_parts_witness :
  calculate_hours (Str (("09" ++ ":" ++ "00" ++ ":" ++ "00") ++ ":" ++ "xx"))
    (Str "18:00")
  = calculate_hours (Str ("09" ++ ":" ++ "00" ++ ":" ++ "00")) (Str "18:00")
  /\ calculate_hours (Str "18:00")
       (Str (("09" ++ ":" ++ "00" ++ ":" ++ "00") ++ ":" ++ "xx"))
     = calculate_hours (Str "18:00") (Str ("09" ++ ":" ++ "00" ++ ":" ++ "00")).
Proof.
  apply (calculate_hours_ignores_further_parts "09" "00" "00" "xx" (Str "18:00"));
    try reflexivity.
  discriminate.
Defined.

(** ** Check-out before check-in *)

Lemma scaled_round_nonneg m e scale :
  0 <= scale -> 0 <= Float.scaled_round m e scale.
Proof.
  intros Hs. unfold Float.scaled_round.
  destruct (Z.leb_spec 0 e) as [He|He].
  - apply Z.mul_nonneg_nonneg; [apply Z.mul_nonneg_nonneg|]; lia.
  - unfold Float.round_half_even.
    assert (0 < 2 ^ (- e)) by (apply Z.pow_pos_nonneg; lia).
    assert (0 <= Zpos m * scale / 2 ^ (- e)) by (apply Z.div_pos; lia).
    destruct (_ ?= _); [destruct (Z.even _)| |]; lia.
Qed.

Lemma scaled_round_100_bound m e :
  Zpos m <= 2 ^ 65 -> e <= 131 -> Float.scaled_round m e 100 < 2 ^ 204.
Proof.
  intros Hm He. unfold Float.scaled_round.
  destruct (Z.leb_spec 0 e) as [He0|He0].
  - assert (2 ^ e <= 2 ^ 131) by (apply Z.pow_le_mono_r; lia).
    assert (0 < 2 ^ e) by (apply Z.pow_pos_nonneg; lia).
    change (2 ^ 204) with (2 ^ 65 * 2 ^ 131 * 2 ^ 8).
    apply Z.le_lt_trans with (2 ^ 65 * 2 ^ 131 * 100); [|lia].
    apply Z.mul_le_mono_nonneg_r; [lia|].
    apply Z.mul_le_mono_nonneg; lia.
  - unfold Float.round_half_even.
    assert (Hp : 0 < 2 ^ (- e)) by (apply Z.pow_pos_nonneg; lia).
    set (den := 2 ^ (- e)) in *.
    assert (Hq1 : Zpos m * 100 / den <= Zpos m * 100)
      by (apply Z.div_le_upper_bound; nia).
    assert (Zpos m * 100 + 1 < 2 ^ 204).
    { apply Z.le_lt_trans with (2 ^ 65 * 100 + 1); [lia|reflexivity]. }
    destruct (_ ?= _); [destruct (Z.even _)| |]; lia.
Qed.

(** Division by 3600 and rounding to two places keep the sign. *)
Lemma hours_sign (sign : bool) (n : positive) q r :
  Zpos n < 2 ^ 64 ->
  match SFdiv Float.prec Float.emax (S754_finite sign n 0)
          (S754_finite false 3600 0) with
  | S754_infinity _ => None
  | x => Some x
  end = Some q ->
  Float.round2 q = Some r -> has_sign sign r.
Proof.
  intros Hd.
  assert (Hn65 : Zpos n < 2 ^ 65)
    by (apply Z.lt_trans with (2 ^ 64); [exact Hd|reflexivity]).
  pose proof (SFdiv_int_finite sign n 3600 65 Hn65 ltac:(lia) eq_refl) as Hq.
  destruct (SFdiv Float.prec Float.emax (S754_finite sign n 0)
              (S754_finite false 3600 0)) as [sq| | |sq mq eq_];
    try contradiction.
  - intros [= <-] [= <-]. exact Hq.
  - destruct Hq as (-> & Hmq & Heq). intros [= <-]. unfold Float.round2.
    pose proof (scaled_round_100_bound mq eq_ Hmq ltac:(lia)) as Hb.
    destruct (Float.scaled_round mq eq_ 100) as [|p|p];
      try (intros [= <-]; reflexivity).
    pose proof (SFdiv_int_finite sign p 100 204 Hb ltac:(lia) eq_refl) as Hr.
    destruct (SFdiv Float.prec Float.emax (S754_finite sign p 0)
                (S754_finite false 100 0));
      try contradiction; intros [= <-]; [exact Hr|exact (proj1 Hr)].
Qed.

Lemma total_minutes_nonpositive hours t :
  hours_range hours -> has_sign true hours ->
  calculate_total_minutes hours = Some t -> t <= 0.
Proof.
  unfold calculate_total_minutes, Float.mul_int.
  replace (Float.of_int 60) with (S754_finite false 8444249301319680 (-47))
    by (vm_compute; reflexivity).
  destruct hours as [s| | |s m e]; cbn [hours_range has_sign]; try contradiction.
  - intros _ _. cbn. intros [= <-]. lia.
  - intros [Hm He] ->. cbn [SFmul xorb].
    assert (Hb : 0 <= Zpos (m * 8444249301319680) < 2 ^ 257).
    { rewrite Pos2Z.inj_mul. split; [lia|].
      change (2 ^ 257) with (2 ^ 204 * 2 ^ 53).
      apply Z.le_lt_trans with (2 ^ 204 * 8444249301319680); [|reflexivity].
      apply Z.mul_le_mono_nonneg_r; lia. }
    pose proof (binary_round_aux_finite true (Zpos (m * 8444249301319680))
                  (e + -47) loc_Exact 257 362 Hb ltac:(lia) ltac:(lia)
                  ltac:(lia) ltac:(lia)) as H.
    destruct (binary_round_aux Float.prec Float.emax true
                (Zpos (m * 8444249301319680)) (e + -47) loc_Exact)
      as [s'| | |s' m' e']; try contradiction.
    + intros [= <-]. lia.
    + destruct H as (-> & _). cbn [Float.round_int]. intros [= <-].
      pose proof (scaled_round_nonneg m' e' 1 ltac:(lia)). lia.
Qed.

(** X10: for a matched record whose well-formed check-out is earlier than
    its check-in, the row is emitted with a TOTAL HOURS that starts with a
    minus sign and with EXTRA MINUTES ["0"]: a shift across midnight counts
    no overtime. *)
Theorem reversed_times_no_overtime
    (lib : date_library) (mapping : gmap string employee_details)
    (row : report_row) (details : employee_details)
    (check_in check_out : string) (t_in t_out : Z) :
  mapping !! Py.strip (astype_str (person_id row)) = Some details ->
  check_in_col row = Some (Str check_in) ->
  check_out_col row = Some (Str check_out) ->
  time_string check_in t_in -> time_string check_out t_out ->
  t_out < t_in ->
  exists o rest,
    process_row lib mapping row = Emitted o
    /\ TOTAL_HOURS o = String "-" rest
    /\ EXTRA_MINUTES o = "0".
Proof.
  intros Hhit Hci Hco Hi Ho Hlt.
  pose proof (time_string_bound _ _ Hi) as Bi.
  pose proof (time_string_bound _ _ Ho) as Bo.
  assert (Hd : - 2 ^ 64 < t_out - t_in < 2 ^ 64).
  { split; [apply Z.lt_le_trans with (- 362439); [reflexivity|lia]|].
    apply Z.le_lt_trans with 362439; [lia|reflexivity]. }
  destruct (hours_defined (t_out - t_in) Hd) as (q & hours & Hq & Hr & Hrange).
  assert (Hsign : has_sign true hours).
  { revert Hq. unfold Float.truediv. cbn [Z.eqb].
    destruct (t_out - t_in) as [|n|n] eqn:E; [lia|lia|].
    cbn [Float.of_Z_exact]. intros Hq.
    apply (hours_sign true n q hours); [lia|exact Hq|exact Hr]. }
  destruct (total_minutes_defined hours Hrange) as [total Ht].
  pose proof (total_minutes_nonpositive hours total Hrange Hsign Ht) as Hneg.
  destruct (format_02d_negative ((t_out - t_in) / 3600)) as [rest Hrest].
  { apply Z.div_lt_upper_bound; lia. }
  eexists. exists (rest ++ ":" ++ Py.format_02d (((t_out - t_in) mod 3600) / 60)
                     ++ ":" ++ Py.format_02d ((t_out - t_in) mod 60)).
  unfold process_row. rewrite Hhit, Hci, Hco.
  change (row_get (Some (Str check_in)) "-") with (Str check_in).
  change (row_get (Some (Str check_out)) "-") with (Str check_out).
  rewrite (calculate_hours_time_strings _ _ _ _ Hi Ho).
  rewrite (finish_hours_defined _ _ _ _ Hq Hr), Ht.
  split; [reflexivity|]. cbn [TOTAL_HOURS EXTRA_MINUTES]. split.
  - rewrite Hrest. reflexivity.
  - unfold calculate_extra_minutes, default_standard_minutes.
    replace (total <=? 540) with true by (symmetry; apply Z.leb_le; lia).
    reflexivity.
Qed.

Lemma reversed_times_no_overtime_witness :
  exists o rest,
    process_row sample_library employee_mapping
      {| person_id := Str "S003"; date := Str "2024-01-01";
         check_in_col := Some (Str "22:00");
         check_out_col := Some (Str "06:00");
         attendance_status_col := None |} = Emitted o
    /\ TOTAL_HOURS o = String "-" rest
    /\ EXTRA_MINUTES o = "0".
Proof.
  apply (reversed_times_no_overtime sample_library employee_mapping _
           {| employee_id := Str "TTQA003"; employee_name := Str "Abdul Shifas";
              department := Str "Pre-Sales" |} "22:00" "06:00" 79200 21600).
  - vm_compute. reflexivity.
  - reflexivity.
  - reflexivity.
  - apply (time_HM "22" "00" 22 0); repeat split; cbn; lia.
  - apply (time_HM "06" "00" 6 0); repeat split; cbn; lia.
  - lia.
Defined.

(** ** The download link *)

Lemma rename_fields_elem name fields index seen :
  name ∈ rename_fields fields index seen ->
  name ∈ fields \/ exists rest, name = String "_" rest.
Proof.
  revert index seen. induction fields as [|f fields IH]; intros index seen;
    cbn [rename_fields]; [intros H; inversion H|].
  intros [->|Hin]%elem_of_cons.
  - destruct (_ || _); [right; eexists; reflexivity|left; left].
  - destruct (IH _ _ Hin) as [H|H]; [left; right; exact H|right; exact H].
Qed.

Lemma index_of_elem name l i : index_of name l = Some i -> name ∈ l.
Proof.
  revert i. induction l as [|x l IH]; intros i; cbn; [discriminate|].
  destruct (String.eqb_spec x name) as [->|_]; [left|].
  destruct (index_of name l) as [j|]; [|discriminate].
  intros _. right. eapply IH. reflexivity.
Qed.

Lemma row_employee_missing df row :
  "NEW_EMPLOYEE_NO_" ∉ df_columns df -> row_employee df row = None.
Proof.
  intros Hno. unfold row_employee.
  destruct (index_of "NEW_EMPLOYEE_NO_" (itertuples_fields df)) as [i|] eqn:E;
    [|reflexivity].
  exfalso. apply index_of_elem in E. unfold itertuples_fields in E.
  apply rename_fields_elem in E as [[E|E]%elem_of_cons|[rest E]].
  - discriminate E.
  - exact (Hno E).
  - discriminate E.
Qed.

(** X7: [get_excel_download_link] raises on every frame that has at least
    one row and no column named exactly [NEW_EMPLOYEE_NO_]: the banding loop
    reads that attribute from the tuples of [itertuples], whose fields are
    the column titles, or [_i] for a title that is no identifier, and never
    that name.  Otherwise a missing [ATTENDANCE STATUS] column has raised
    before. *)
Theorem get_excel_download_link_raises
    (xl : excel_library) (df : data_frame) (filename : string) :
  df_rows df <> [] -> "NEW_EMPLOYEE_NO_" ∉ df_columns df ->
  get_excel_download_link xl df filename = None.
Proof.
  intros Hrows Hno. unfold get_excel_download_link.
  destruct (get_loc df "ATTENDANCE STATUS") as [i|]; [|reflexivity].
  cbn [fmap option_fmap option_map mbind option_bind].
  destruct (df_rows df) as [|row rest]; [congruence|].
  cbn [band_rows]. rewrite (row_employee_missing df row Hno). reflexivity.
Qed.

Lemma report_columns_no_attribute : "NEW_EMPLOYEE_NO_" ∉ report_columns.
Proof.
  intros H. apply list_elem_of_In in H. cbn in H.
  repeat (destruct H as [H|H]; [discriminate H|]). exact H.
Qed.

Lemma get_excel_download_link_raises_witness :
  get_excel_download_link
    {| workbook_base64 := fun _ _ => "" |}
    (report_frame
       [(0, {| DATE := Str "2024-01-01"; DAY := "Monday";
               NEW_EMPLOYEE_NO := Str "TTQA003";
               EMPLOYEE_NAME := Str "Abdul Shifas";
               DEPARTMENT_NAME := Str "Pre-Sales";
               TIME_IN := Str "09:00"; TIME_OUT := Str "18:00";
               TOTAL_HOURS := "09:00:00"; ATTENDANCE_STATUS := Str "normal";
               EXTRA_MINUTES := "0"; NEW_INTIME := ""; NEW_OUTTIME := "";
               NEW_TOTAL_HOURS := ""; OT_UT := ""; REMARKS := ""; REASON := "";
               MANAGERS_COMMENTS := "" |})])
    "attendance_report.xlsx" = None.
Proof.
  apply get_excel_download_link_raises.
  - discriminate.
  - exact report_columns_no_attribute.
Defined.

Lemma generate_report_nonempty lib report_df report :
  generate_report lib report_df = Some report -> report <> [].
Proof.
  intros Hgen.
  destruct (generate_report_unfold _ _ _ Hgen)
    as (_ & _ & out & sorted & Eo & Es & E).
  destruct (sort_report_length _ _ _ Es) as [Hne Hlen].
  intros ->. symmetry in E. apply map_eq_nil in E. subst sorted.
  destruct out; [congruence|discriminate].
Qed.

(** X9: no upload reaches the download link.  Whenever the transform has
    produced its report, building the link from the frame of that report,
    whatever its index labels, raises in the banding loop; the handler then
    ends in its error branch, as it does when no report is produced. *)
Theorem upload_never_links
    (lib : date_library) (xl : excel_library) (report_df : uploaded_frame)
    (report : list output_row) (labelled : list (Z * output_row)) :
  generate_report lib report_df = Some report ->
  map snd labelled = report ->
  get_excel_download_link xl (report_frame labelled) "attendance_report.xlsx"
  = None.
Proof.
  intros Hgen Hlab.
  pose proof (generate_report_nonempty _ _ _ Hgen) as Hne.
  unfold get_excel_download_link.
  destruct (get_loc (report_frame labelled) "ATTENDANCE STATUS") as [i|];
    [|reflexivity].
  cbn [fmap option_fmap option_map mbind option_bind].
  destruct labelled as [|row rest]; [cbn in Hlab; congruence|].
  cbn [report_frame df_rows map band_rows].
  rewrite row_employee_missing by exact report_columns_no_attribute.
  reflexivity.
Qed.

Lemma upload_never_links_witness :
  let report_df :=
    text_frame [{| person_id := Str "S003"; date := Str "2024-01-02";
                   check_in_col := Some (Str "09:00");
                   check_out_col := Some (Str "18:00");
                   attendance_status_col := Some (Str "normal") |}] in
  exists report,
    generate_report sample_library report_df = Some report
    /\ get_excel_download_link {| workbook_base64 := fun _ _ => "" |}
         (report_frame (map (fun o => (0, o)) report)) "attendance_report.xlsx"
       = None.
Proof.
  intros report_df.
  destruct (generate_report sample_library report_df) as [report|] eqn:E;
    [|vm_compute in E; discriminate].
  exists report. split; [reflexivity|].
  apply (upload_never_links sample_library _ report_df report); [exact E|].
  rewrite map_map. cbn. apply map_id.
Defined.
